(** * WebDataScraper: the extraction-and-pagination engine of [scraper.py]

    A shallow embedding of [WebScraper] ([fetch_page], [extract_field],
    [scrape]) and of the two writers [save_as_json] and [save_as_csv],
    followed by the properties the specification states about them.

    Python strings are modelled by [string]; a character stands for a code
    point below 256.  The libraries the program calls (requests, the HTML
    parser and selector engine of BeautifulSoup, [urllib.parse.urlparse])
    are collected in a record [World]; the string methods, [Tag.get],
    [Tag.get_text] and [urlunparse] are written out. *)

From Stdlib Require Import String Ascii List ZArith Lia Bool.
Import ListNotations.
Local Open Scope list_scope.
Local Open Scope string_scope.

(** ** Exceptions *)

Inductive exn : Type :=
| AttributeError      (* a [str] method called on a value that is a list *)
| ValueError          (* [urlparse] on a malformed netloc, [DictWriter] on extra keys *)
| SelectorSyntaxError (* the selector engine refusing a selector *).

Inductive result (A : Type) : Type :=
| Ok (a : A)
| Raise (e : exn).

Arguments Ok {A} a.
Arguments Raise {A} e.

Definition bind {A B : Type} (m : result A) (k : A -> result B) : result B :=
  match m with
  | Ok a => k a
  | Raise e => Raise e
  end.

Notation "x <- m ;; k" := (bind m (fun x => k))
  (at level 61, m at next level, right associativity).

(** [[f(x) for x in xs]] where [f] may raise: left to right, first exception wins. *)
Fixpoint mapM {A B : Type} (f : A -> result B) (xs : list A) : result (list B) :=
  match xs with
  | [] => Ok []
  | x :: xs' => y <- f x ;; ys <- mapM f xs' ;; Ok (y :: ys)
  end.

(** ** The [str] methods the scraper calls *)

Module PyStr.

(** [s.startswith(p)] *)
Definition startswith (s p : string) : bool := String.prefix p s.

(** [s.endswith(suffix)] *)
Fixpoint endswith (s suffix : string) : bool :=
  (s =? suffix) ||
  match s with
  | EmptyString => false
  | String _ r => endswith r suffix
  end.

(** [c.isspace()] for code points below 256: TAB..CR, FS..US, space, NEL, NBSP. *)
Definition isspace (c : ascii) : bool :=
  let n := nat_of_ascii c in
  (((9 <=? n) && (n <=? 13)) || ((28 <=? n) && (n <=? 32))
   || (n =? 133) || (n =? 160))%nat.

Fixpoint lstrip_by (p : ascii -> bool) (s : string) : string :=
  match s with
  | EmptyString => EmptyString
  | String c r => if p c then lstrip_by p r else s
  end.

Fixpoint rstrip_by (p : ascii -> bool) (s : string) : string :=
  match s with
  | EmptyString => EmptyString
  | String c r =>
      match rstrip_by p r with
      | EmptyString => if p c then EmptyString else String c EmptyString
      | String _ _ as r' => String c r'
      end
  end.

Fixpoint mem_char (c : ascii) (chars : string) : bool :=
  match chars with
  | EmptyString => false
  | String d r => Ascii.eqb c d || mem_char c r
  end.

(** [s.rstrip(chars)] *)
Definition rstrip (s chars : string) : string :=
  rstrip_by (fun c => mem_char c chars) s.

(** [s.strip()] *)
Definition strip (s : string) : string :=
  lstrip_by isspace (rstrip_by isspace s).

(** [s.rsplit(sep, 1)] for a one-character separator: split at the last
    occurrence of [sep], or the whole string alone when there is none. *)
Fixpoint rsplit1 (s : string) (sep : ascii) : list string :=
  match s with
  | EmptyString => [EmptyString]
  | String c r =>
      match rsplit1 r sep with
      | [hd; tl] => [String c hd; tl]
      | _ => if Ascii.eqb c sep then [EmptyString; r] else [s]
      end
  end.

(** [sep.join(parts)] *)
Definition join (sep : string) (parts : list string) : string :=
  String.concat sep parts.

(** Truth value of a string: empty is false. *)
Definition truthy (s : string) : bool := negb (s =? EmptyString).

End PyStr.

(** ** [urllib.parse]: the result of [urlparse] and [urlunparse] *)

Module Urllib.

Record ParseResult : Type := mkParseResult {
  scheme : string;
  netloc : string;
  path : string;
  params : string;
  query : string;
  fragment : string
}.

(** [urllib.parse.uses_netloc] *)
Definition uses_netloc : list string :=
  [EmptyString; "ftp"; "http"; "gopher"; "nntp"; "telnet"; "imap"; "wais";
   "file"; "mms"; "https"; "shttp"; "snews"; "prospero"; "rtsp"; "rtsps";
   "rtspu"; "rsync"; "svn"; "svn+ssh"; "sftp"; "nfs"; "git"; "git+ssh";
   "ws"; "wss"; "itms-services"].

Definition in_list (s : string) (l : list string) : bool :=
  existsb (String.eqb s) l.

(** [urlunsplit((scheme, netloc, url, query, fragment))] *)
Definition urlunsplit (scheme netloc url query fragment : string) : string :=
  let url :=
    if PyStr.truthy netloc
       || (PyStr.truthy scheme && in_list scheme uses_netloc
           && negb (String.substring 0 2 url =? "//"))
    then
      let url :=
        if PyStr.truthy url && negb (String.substring 0 1 url =? "/")
        then "/" ++ url else url in
      "//" ++ netloc ++ url
    else url in
  let url := if PyStr.truthy scheme then scheme ++ ":" ++ url else url in
  let url := if PyStr.truthy query then url ++ "?" ++ query else url in
  if PyStr.truthy fragment then url ++ "#" ++ fragment else url.

(** [urlunparse((scheme, netloc, url, params, query, fragment))] *)
Definition urlunparse (p : ParseResult) : string :=
  let url :=
    if PyStr.truthy (params p) then path p ++ ";" ++ params p else path p in
  urlunsplit (scheme p) (netloc p) url (query p) (fragment p).

End Urllib.

(** ** The parse tree of BeautifulSoup *)

Module Bs4.

(** The value of an attribute: a string, or a list of strings for the
    attributes the parser treats as multi-valued ([class], [rel], ...). *)
Inductive AttrValue : Type :=
| AttrStr (s : string)
| AttrList (l : list string).

(** The classes the parser gives to the text inside the tags it treats
    as string containers ([builder.string_containers]). *)
Inductive Container : Type :=
| Script                 (* text inside [script] *)
| Stylesheet             (* text inside [style] *)
| TemplateString         (* text inside [template] *)
| RubyTextString         (* text inside [rt] *)
| RubyParenthesisString  (* text inside [rp] *).

Inductive Child (T : Type) : Type :=
| Element (t : T)
| NavigableString (s : string)   (* ordinary text, and CDATA sections *)
| Comment (s : string)           (* comments, doctypes, declarations *)
| ContainerString (k : Container) (s : string).

Arguments Element {T} t.
Arguments NavigableString {T} s.
Arguments Comment {T} s.
Arguments ContainerString {T} k s.

#[warnings="-register-all"]
Inductive Tag : Type :=
| mkTag (name : string) (attrs : list (string * AttrValue))
        (contents : list (Child Tag)).

Definition name (t : Tag) : string := let (n, _, _) := t in n.
Definition attrs (t : Tag) : list (string * AttrValue) := let (_, a, _) := t in a.
Definition contents (t : Tag) : list (Child Tag) := let (_, _, c) := t in c.

(** [dict.get(key)] on an insertion-ordered dict. *)
Fixpoint dict_get {V : Type} (d : list (string * V)) (key : string) : option V :=
  match d with
  | [] => None
  | (k, v) :: r => if k =? key then Some v else dict_get r key
  end.

(** [tag.get(key)]: [None] when the attribute is absent. *)
Definition get (t : Tag) (key : string) : option AttrValue :=
  dict_get (attrs t) key.

(** Truth value of what [tag.get] returns. *)
Definition truthy (v : option AttrValue) : bool :=
  match v with
  | None => false
  | Some (AttrStr s) => PyStr.truthy s
  | Some (AttrList l) => negb (Nat.eqb (List.length l) 0)
  end.

(** [tag.interesting_string_types]: the class of strings a tag reads,
    set from its name when the tag is built; [None] stands for the
    default, ordinary text. *)
Definition interesting_string_types (tag_name : string) : option Container :=
  if tag_name =? "script" then Some Script
  else if tag_name =? "style" then Some Stylesheet
  else if tag_name =? "template" then Some TemplateString
  else if tag_name =? "rt" then Some RubyTextString
  else if tag_name =? "rp" then Some RubyParenthesisString
  else None.

Definition same_container (a b : Container) : bool :=
  match a, b with
  | Script, Script
  | Stylesheet, Stylesheet
  | TemplateString, TemplateString
  | RubyTextString, RubyTextString
  | RubyParenthesisString, RubyParenthesisString => true
  | _, _ => false
  end.

(** The strings of class [types] below a tag, in document order. *)
Fixpoint strings_of_type (types : option Container) (t : Tag) : list string :=
  match t with
  | mkTag _ _ cs =>
      flat_map (fun c =>
                  match c with
                  | Element t' => strings_of_type types t'
                  | NavigableString s =>
                      match types with
                      | None => [s]
                      | Some _ => []
                      end
                  | ContainerString k s =>
                      match types with
                      | Some k' => if same_container k k' then [s] else []
                      | None => []
                      end
                  | Comment _ => []
                  end) cs
  end.

(** [Tag._all_strings] with the default [types]: the strings below the
    tag that are of the class this tag reads.  Text inside a [script]
    is read when the tag is that [script], and left out when the tag is
    one around it; comments are never read. *)
Definition all_strings (t : Tag) : list string :=
  strings_of_type (interesting_string_types (name t)) t.

(** [tag.get_text(strip=True)]: every string stripped, the empty ones left
    out, the rest joined with the default separator, the empty string. *)
Definition get_text_strip (t : Tag) : string :=
  PyStr.join EmptyString
    (filter PyStr.truthy (map PyStr.strip (all_strings t))).

End Bs4.

(** ** What the program asks of the outside world *)

Inductive RequestException : Type :=
| ConnectionError
| Timeout
| TooManyRedirects
| InvalidURL.

Record Response : Type := mkResponse {
  status_code : Z;
  text : string
}.

Inductive GetOutcome : Type :=
| Responded (resp : Response)
| Failed (exc : RequestException).

(** [requests_get n url] is the outcome of the [n]-th call
    [requests.get(url, timeout=10)] of a run; [BeautifulSoup html] is
    [BeautifulSoup(html, "html.parser")]; [select t sel] is [t.select(sel)];
    [urlparse url] is [urllib.parse.urlparse(url)]. *)
Record World : Type := mkWorld {
  requests_get : Z -> string -> GetOutcome;
  BeautifulSoup : string -> Bs4.Tag;
  select : Bs4.Tag -> string -> result (list Bs4.Tag);
  urlparse : string -> result Urllib.ParseResult
}.

(** [t.select_one(sel)]: the first result of [select], if any. *)
Definition select_one (w : World) (t : Bs4.Tag) (sel : string)
  : result (option Bs4.Tag) :=
  l <- select w t sel ;; Ok (hd_error l).

(** [resp.raise_for_status()] raises [HTTPError] for the 4xx and 5xx codes. *)
Definition raise_for_status (resp : Response) : bool :=
  ((400 <=? status_code resp) && (status_code resp <? 600))%Z.

(** ** Configuration and records *)

Record FieldCfg : Type := mkFieldCfg {
  selector : string;
  attr : option string;
  multiple : bool
}.

(** [max_pages] holds [int(pagination.get("max_pages", 0))]. *)
Record Pagination : Type := mkPagination {
  max_pages : Z;
  next_page_selector : option string
}.

Record Config : Type := mkConfig {
  start_url : string;
  item_selector : string;
  fields : list (string * FieldCfg);
  pagination : Pagination
}.

Inductive Value : Type :=
| Str (s : string)
| StrList (l : list string).

(** A row is a [dict] in insertion order. *)
Definition Row : Type := list (string * Value).

(** [d[k] = v] *)
Fixpoint dict_set {V : Type} (d : list (string * V)) (k : string) (v : V)
  : list (string * V) :=
  match d with
  | [] => [(k, v)]
  | (k', v') :: r =>
      if k' =? k then (k', v) :: r else (k', v') :: dict_set r k v
  end.

Definition keys {V : Type} (d : list (string * V)) : list string :=
  map fst d.

(** ** [WebScraper] *)

Section WebScraper.

Variable w : World.
Variable cfg : Config.

(** [fetch_page]: [None] when [requests.get] or [raise_for_status] raises. *)
Definition fetch_page (n : Z) (url : string) : option Bs4.Tag :=
  match requests_get w n url with
  | Failed _ => None
  | Responded resp =>
      if raise_for_status resp then None
      else Some (BeautifulSoup w (text resp))
  end.

(** [el.get(attr, "").strip()] *)
Definition get_strip (el : Bs4.Tag) (a : string) : result string :=
  match Bs4.get el a with
  | None => Ok (PyStr.strip EmptyString)
  | Some (Bs4.AttrStr s) => Ok (PyStr.strip s)
  | Some (Bs4.AttrList _) => Raise AttributeError
  end.

(** The attribute to read, when [if attr:] holds. *)
Definition attr_set (field_cfg : FieldCfg) : option string :=
  match attr field_cfg with
  | Some a => if PyStr.truthy a then Some a else None
  | None => None
  end.

Definition extract_field (item : Bs4.Tag) (field_cfg : FieldCfg) : result Value :=
  if multiple field_cfg then
    elements <- select w item (selector field_cfg) ;;
    values <- match attr_set field_cfg with
              | Some a => mapM (fun el => get_strip el a) elements
              | None => Ok (map Bs4.get_text_strip elements)
              end ;;
    Ok (StrList values)
  else
    element <- select_one w item (selector field_cfg) ;;
    match element with
    | None => Ok (Str EmptyString)
    | Some el =>
        match attr_set field_cfg with
        | Some a => s <- get_strip el a ;; Ok (Str s)
        | None => Ok (Str (Bs4.get_text_strip el))
        end
    end.

(** The inner loop of [scrape] over [self.fields.items()]. *)
Fixpoint fill_row (item : Bs4.Tag) (fs : list (string * FieldCfg)) (row : Row)
  : result Row :=
  match fs with
  | [] => Ok row
  | (field_name, field_cfg) :: fs' =>
      v <- extract_field item field_cfg ;;
      fill_row item fs' (dict_set row field_name v)
  end.

(** The rows one page adds to [results]. *)
Definition page_rows (soup : Bs4.Tag) : result (list Row) :=
  items <- select w soup (item_selector cfg) ;;
  mapM (fun item => fill_row item (fields cfg) []) items.

(** Lines 93 to 111 of [scrape]: the URL of the next page. *)
Definition next_url (current_url href : string) : result string :=
  if PyStr.startswith href "http://" || PyStr.startswith href "https://" then
    Ok href
  else if PyStr.endswith current_url "/" && PyStr.startswith href "/" then
    Ok (PyStr.rstrip current_url "/" ++ href)
  else if PyStr.startswith href "/" then
    parsed <- urlparse w current_url ;;
    let base :=
      Urllib.urlunparse
        (Urllib.mkParseResult (Urllib.scheme parsed) (Urllib.netloc parsed)
           EmptyString EmptyString EmptyString EmptyString) in
    Ok (base ++ href)
  else if PyStr.endswith current_url "/" then
    Ok (current_url ++ href)
  else
    Ok (nth 0 (PyStr.rsplit1 current_url "/") EmptyString ++ "/" ++ href).

(** [int(...) or None] *)
Definition max_pages_opt : option Z :=
  if (max_pages (pagination cfg) =? 0)%Z then None
  else Some (max_pages (pagination cfg)).

Inductive Status : Type :=
| Done                (* the loop was left and [results] returned *)
| Raised (e : exn)    (* an exception left [scrape] *)
| OutOfFuel           (* the loop was still running *).

(** What a run has done: how it ended, the rows appended to [results], and
    the URLs passed to [fetch_page], both in order. *)
Record Run : Type := mkRun {
  status : Status;
  results : list Row;
  requested : list string
}.

(** How one pass through the loop body ends. *)
Inductive Next : Type :=
| Finish              (* [break] *)
| Fail (e : exn)      (* an exception *)
| Goto (url : string) (* on to the next page *).

(** The loop body from [# Pagination] on: the three [break]s in their
    order, then the URL of the next page. *)
Definition advance (soup : Bs4.Tag) (current_url : string) (page_index : Z)
  : Next :=
  if match max_pages_opt with
     | Some m => (page_index >=? m)%Z
     | None => false
     end
  then Finish
  else
    match next_page_selector (pagination cfg) with
    | None => Finish
    | Some next_selector =>
        if negb (PyStr.truthy next_selector) then Finish
        else
          match select_one w soup next_selector with
          | Raise e => Fail e
          | Ok None => Finish
          | Ok (Some next_link) =>
              let href := Bs4.get next_link "href" in
              if negb (Bs4.truthy href) then Finish
              else
                match href with
                | Some (Bs4.AttrStr href) =>
                    match next_url current_url href with
                    | Raise e => Fail e
                    | Ok url => Goto url
                    end
                | _ => Fail AttributeError
                end
          end
    end.

(** The [while current_url:] loop; [fuel] bounds the number of iterations. *)
Fixpoint scrape_loop (fuel : nat) (current_url : string) (page_index : Z)
  (results : list Row) (requested : list string) : Run :=
  if negb (PyStr.truthy current_url) then mkRun Done results requested else
  match fuel with
  | O => mkRun OutOfFuel results requested
  | S fuel' =>
      let requested := (requested ++ [current_url])%list in
      match fetch_page page_index current_url with
      | None => mkRun Done results requested
      | Some soup =>
          match page_rows soup with
          | Raise e => mkRun (Raised e) results requested
          | Ok rows =>
              let results := (results ++ rows)%list in
              match advance soup current_url page_index with
              | Finish => mkRun Done results requested
              | Fail e => mkRun (Raised e) results requested
              | Goto url =>
                  scrape_loop fuel' url (page_index + 1)%Z results requested
              end
          end
      end
  end.

Definition scrape_run (fuel : nat) : Run :=
  scrape_loop fuel (start_url cfg) 1%Z [] [].

(** What [scrape()] gives its caller: nothing while the loop runs, the
    list of rows, or the exception. *)
Definition scrape (fuel : nat) : option (result (list Row)) :=
  match status (scrape_run fuel) with
  | Done => Some (Ok (results (scrape_run fuel)))
  | Raised e => Some (Raise e)
  | OutOfFuel => None
  end.

End WebScraper.

(** ** The two writers and [main] *)

(** What a file holds: the value handed to [json.dump], or the rows handed
    to the [csv] writer, header first, one list of cells per line. *)
Inductive FileContent : Type :=
| JsonDocument (rows : list Row)
| CsvDocument (lines : list (list string)).

(** What the writers leave behind: the files written, the lines printed,
    and the exception that ended the call, if any. *)
Record Output : Type := mkOutput {
  files : list (string * FileContent);
  stdout : list string;
  raised : option exn
}.

Definition save_as_json (rows : list Row) (path : string) : Output :=
  mkOutput [(path, JsonDocument rows)] ["[INFO] Saved JSON: " ++ path] None.

(** [", ".join(v) if isinstance(v, list) else v] *)
Definition flatten (v : Value) : string :=
  match v with
  | StrList l => PyStr.join ", " l
  | Str s => s
  end.

(** [DictWriter._dict_to_list]: [ValueError] on a key outside [fieldnames],
    then one cell per field name, the empty string for a missing key. *)
Definition dict_to_list (fieldnames : list string)
  (rowdict : list (string * string)) : result (list string) :=
  if existsb (fun k => negb (Urllib.in_list k fieldnames)) (keys rowdict)
  then Raise ValueError
  else Ok (map (fun key =>
                  match Bs4.dict_get rowdict key with
                  | Some cell => cell
                  | None => EmptyString
                  end) fieldnames).

(** The loop of [save_as_csv]: the lines written, and the exception that
    stopped it, if any. *)
Fixpoint write_rows (fieldnames : list string) (rows : list Row)
  : list (list string) * option exn :=
  match rows with
  | [] => ([], None)
  | row :: rest =>
      let row_to_write := map (fun kv => (fst kv, flatten (snd kv))) row in
      match dict_to_list fieldnames row_to_write with
      | Raise e => ([], Some e)
      | Ok cells =>
          let (lines, exc) := write_rows fieldnames rest in
          (cells :: lines, exc)
      end
  end.

Definition save_as_csv (rows : list Row) (path : string) : Output :=
  match rows with
  | [] => mkOutput [] ["[WARN] No data to save as CSV."] None
  | first :: _ =>
      let fieldnames := keys first in
      let (lines, exc) := write_rows fieldnames rows in
      mkOutput [(path, CsvDocument (fieldnames :: lines))]
        match exc with
        | None => ["[INFO] Saved CSV: " ++ path]
        | Some _ => []
        end
        exc
  end.

(** One call after another: the second runs when the first did not raise. *)
Definition and_then (o : Output) (next : Output) : Output :=
  match raised o with
  | Some _ => o
  | None =>
      mkOutput (files o ++ files next)%list (stdout o ++ stdout next)%list
        (raised next)
  end.

(** [main] once the configuration is loaded; [json_path] and [csv_path] are
    [output_base.with_suffix(".json")] and [output_base.with_suffix(".csv")].
    [None] while [scrape] is still running. *)
Definition main (w : World) (cfg : Config) (json_path csv_path : string)
  (fuel : nat) : option Output :=
  match scrape w cfg fuel with
  | None => None
  | Some (Raise e) => Some (mkOutput [] [] (Some e))
  | Some (Ok rows) =>
      Some (and_then (save_as_json rows json_path) (save_as_csv rows csv_path))
  end.

(** ** Observations on a run, and the notions the specification uses *)

(** The pages [fetch_page] returned for the requests [urls], the first of
    which is request number [n]. *)
Fixpoint pages_from (w : World) (n : Z) (urls : list string) : list Bs4.Tag :=
  match urls with
  | [] => []
  | url :: rest =>
      match fetch_page w n url with
      | Some soup => soup :: pages_from w (n + 1)%Z rest
      | None => pages_from w (n + 1)%Z rest
      end
  end.

(** Every character of [s] satisfies [p]. *)
Fixpoint all_chars (p : ascii -> bool) (s : string) : bool :=
  match s with
  | EmptyString => true
  | String c r => p c && all_chars p r
  end.

Definition is_slash (c : ascii) : bool := Ascii.eqb c "/".

(** [s] contains no slash. *)
Definition slash_free (s : string) : bool :=
  all_chars (fun c => negb (is_slash c)) s.

(** An href that is already absolute (first branch of the resolution). *)
Definition absolute (h : string) : bool :=
  PyStr.startswith h "http://" || PyStr.startswith h "https://".

(** Scheme plus authority of [cur], as [scrape] rebuilds it. *)
Definition site_root (w : World) (cur : string) : result string :=
  parsed <- urlparse w cur ;;
  Ok (Urllib.urlunparse
        (Urllib.mkParseResult (Urllib.scheme parsed) (Urllib.netloc parsed)
           EmptyString EmptyString EmptyString EmptyString)).

(** First and last character of a string. *)
Definition first_char (s : string) : option ascii :=
  match s with
  | EmptyString => None
  | String c _ => Some c
  end.

Fixpoint last_char (s : string) : option ascii :=
  match s with
  | EmptyString => None
  | String c EmptyString => Some c
  | String _ r => last_char r
  end.

Definition not_space (c : option ascii) : bool :=
  match c with
  | Some c => negb (PyStr.isspace c)
  | None => true
  end.

(** Visible text as the specification words it: the text strings below the
    node put together, every run of whitespace collapsed into one space,
    and the ends trimmed. *)
Fixpoint collapse_whitespace (s : string) : string :=
  match s with
  | EmptyString => EmptyString
  | String c r =>
      if PyStr.isspace c then
        match r with
        | String d _ =>
            if PyStr.isspace d then collapse_whitespace r
            else String " " (collapse_whitespace r)
        | EmptyString => String " " EmptyString
        end
      else String c (collapse_whitespace r)
  end.

Definition visible_text (t : Bs4.Tag) : string :=
  PyStr.strip (collapse_whitespace (PyStr.join EmptyString (Bs4.all_strings t))).

(** No two whitespace characters in a row. *)
Fixpoint collapsed (s : string) : bool :=
  match s with
  | EmptyString => true
  | String c r =>
      negb (PyStr.isspace c && negb (not_space (first_char r))) && collapsed r
  end.



Definition is_list (v : Value) : bool :=
  match v with
  | StrList _ => true
  | Str _ => false
  end.

(** Request [n] for [url] succeeds, its page yields rows, and the page
    holds a link under [sel] whose [href] is a non-empty string that
    resolves. *)
Definition good_page (w : World) (cfg : Config) (sel : string) (n : Z)
  (url : string) : Prop :=
  exists soup rows link href next,
    fetch_page w n url = Some soup /\
    page_rows w cfg soup = Ok rows /\
    select_one w soup sel = Ok (Some link) /\
    Bs4.get link "href" = Some (Bs4.AttrStr href) /\
    PyStr.truthy href = true /\
    next_url w url href = Ok next.

(** The string one matched node contributes to the value of a field. *)
Definition node_string (fc : FieldCfg) (el : Bs4.Tag) : result string :=
  match attr_set fc with
  | Some a => get_strip el a
  | None => Ok (Bs4.get_text_strip el)
  end.

(** Neither the first nor the last character is whitespace. *)
Definition trimmed (s : string) : bool :=
  not_space (first_char s) && not_space (last_char s).

(** ** A small world to run the definitions in *)

Module Demo.

Import Bs4.

Fixpoint descendants (t : Tag) : list Tag :=
  match t with
  | mkTag _ _ cs =>
      flat_map (fun c =>
                  match c with
                  | Element t' => t' :: descendants t'
                  | _ => []
                  end) cs
  end.

(** Type selectors only: [t.select("h2")] is the [h2] tags below [t] in
    document order; the empty selector is refused. *)
Definition select (t : Tag) (sel : string) : result (list Tag) :=
  if PyStr.truthy sel
  then Ok (filter (fun d => name d =? sel) (descendants t))
  else Raise SelectorSyntaxError.

(** [s] up to the first character satisfying [p], and the rest from it. *)
Fixpoint break (p : ascii -> bool) (s : string) : string * string :=
  match s with
  | EmptyString => (EmptyString, EmptyString)
  | String c r =>
      if p c then (EmptyString, s)
      else let (a, b) := break p r in (String c a, b)
  end.

Definition is_alpha (c : ascii) : bool :=
  let n := nat_of_ascii c in
  (((65 <=? n) && (n <=? 90)) || ((97 <=? n) && (n <=? 122)))%nat.

Definition scheme_char (c : ascii) : bool :=
  let n := nat_of_ascii c in
  (is_alpha c || ((48 <=? n) && (n <=? 57))%nat
   || Ascii.eqb c "+" || Ascii.eqb c "-" || Ascii.eqb c ".").

Definition lower (c : ascii) : ascii :=
  let n := nat_of_ascii c in
  if ((65 <=? n) && (n <=? 90))%nat then ascii_of_nat (n + 32) else c.

Fixpoint lower_string (s : string) : string :=
  match s with
  | EmptyString => EmptyString
  | String c r => String (lower c) (lower_string r)
  end.

(** Scheme and netloc as [urlsplit] finds them in a URL without control
    characters; the rest is left in [path].  A netloc with one bracket and
    not the other is refused. *)
Definition urlparse (url : string) : result Urllib.ParseResult :=
  let (before, after) := break (Ascii.eqb ":") url in
  let (scheme, rest) :=
    match before, after with
    | String c _, String _ after' =>
        if is_alpha c && all_chars scheme_char before
        then (lower_string before, after')
        else (EmptyString, url)
    | _, _ => (EmptyString, url)
    end in
  match rest with
  | String "/" (String "/" rest') =>
      let (netloc, path) :=
        break (fun c => Ascii.eqb c "/" || Ascii.eqb c "?" || Ascii.eqb c "#")
          rest' in
      if Bool.eqb (PyStr.mem_char "[" netloc) (PyStr.mem_char "]" netloc)
      then Ok (Urllib.mkParseResult scheme netloc path
                 EmptyString EmptyString EmptyString)
      else Raise ValueError
  | _ =>
      Ok (Urllib.mkParseResult scheme EmptyString rest
            EmptyString EmptyString EmptyString)
  end.

Definition text_node (s : string) : Child Tag := NavigableString s.
Definition elem (n : string) (cs : list (Child Tag)) : Child Tag :=
  Element (mkTag n [] cs).
Definition link (href text : string) : Child Tag :=
  Element (mkTag "a" [("href", AttrStr href)] [text_node text]).
Definition document (cs : list (Child Tag)) : Tag := mkTag "[document]" [] cs.

(** Three listing pages: the first links to the second with a rooted href,
    the second to the third with a relative one, the third has no link. *)
Definition page1 : Tag :=
  document [elem "li" [elem "h2" [text_node "First"]; elem "i" [text_node "x"]];
            elem "li" [elem "h2" [text_node " Second "]];
            link "/p2" "next"].
Definition page2 : Tag :=
  document [elem "li" [elem "h2" [text_node "Third"];
                       elem "i" [text_node "y"]; elem "i" [text_node "z"]];
            link "p3" "next"].
Definition page3 : Tag :=
  document [elem "li" [elem "h2" [text_node "Fourth"]]].

Definition parse (html : string) : Tag :=
  if html =? "page1" then page1
  else if html =? "page2" then page2
  else if html =? "page3" then page3
  else document [].

Definition body_of (url : string) : string :=
  if url =? "http://example.com/list" then "page1"
  else if url =? "http://example.com/p2" then "page2"
  else if url =? "http://example.com/p3" then "page3"
  else EmptyString.

(** The site answers every request with status 200. *)
Definition site : World :=
  mkWorld (fun _ url => Responded (mkResponse 200 (body_of url)))
    parse select urlparse.

(** The second request of a run meets [outcome]. *)
Definition site_with_second (outcome : string -> GetOutcome) : World :=
  mkWorld (fun n url =>
             if (n =? 2)%Z then outcome url
             else Responded (mkResponse 200 (body_of url)))
    parse select urlparse.

(** A page that always links on, to an absolute URL. *)
Definition endless_page : Tag :=
  document [elem "li" [elem "h2" [text_node "Again"]];
            link "http://example.com/more" "next"].

Definition endless : World :=
  mkWorld (fun _ _ => Responded (mkResponse 200 "more"))
    (fun _ => endless_page) select urlparse.

(** [<li><h2>a  b</h2></li>]: two spaces inside one text string. *)
Definition spaced_heading : Tag := mkTag "h2" [] [text_node "a  b"].
Definition spaced_item : Tag := mkTag "li" [] [Element spaced_heading].

(** [<li><h2>Hello <b>world</b></h2></li>]: a space between two strings. *)
Definition nested_heading : Tag :=
  mkTag "h2" [] [text_node "Hello "; elem "b" [text_node "world"]].
Definition nested_item : Tag := mkTag "li" [] [Element nested_heading].

(** [<li><a>x</a><a href=' /y '>y</a></li>]: one link without [href]. *)
Definition bare_link : Tag := mkTag "a" [] [text_node "x"].
Definition href_link : Tag :=
  mkTag "a" [("href", AttrStr " /y ")] [text_node "y"].
Definition links_item : Tag :=
  mkTag "li" [] [Element bare_link; Element href_link].

Definition title_only : list (string * FieldCfg) :=
  [("title", mkFieldCfg "h2" None false)].

Definition title_and_tags : list (string * FieldCfg) :=
  [("title", mkFieldCfg "h2" None false);
   ("tags", mkFieldCfg "i" None true)].

Definition config (fs : list (string * FieldCfg)) (max_pages : Z) : Config :=
  mkConfig "http://example.com/list" "li" fs
    (mkPagination max_pages (Some "a")).

(** Every page, titles only. *)
Definition titles : Config := config title_only 0.

(** The same listing asked for at a URL the site has nothing under. *)
Definition nothing_there : Config :=
  mkConfig "http://example.com/none" "li" title_only
    (mkPagination 0 (Some "a")).

Definition multiple_choices_site : World :=
  site_with_second (fun url => Responded (mkResponse 300 (body_of url))).

(** [<div>Total<script>var x = 1</script><!-- old --></div>] *)
Definition inline_script : Tag :=
  mkTag "script" [] [ContainerString Script "var x = 1"].
Definition scripted_block : Tag :=
  mkTag "div" [] [text_node "Total"; Element inline_script; Comment " old "].

(** [<li><a class='x y'>t</a></li>]: [class] is held as a list. *)
Definition classy_link : Tag :=
  mkTag "a" [("class", AttrList ["x"; "y"])] [text_node "t"].
Definition classy_item : Tag := mkTag "li" [] [Element classy_link].

(** Fields read from the [class] attribute of the links. *)
Definition class_fields : list (string * FieldCfg) :=
  [("kind", mkFieldCfg "a" (Some "class") false)].

(** A page whose item holds such a link. *)
Definition classy_page : Tag := document [Element classy_item].
Definition classy_site : World :=
  mkWorld (fun _ _ => Responded (mkResponse 200 "classy"))
    (fun _ => classy_page) select urlparse.

End Demo.

(** ** Further notions used in the statements *)

(** Every string of a value is trimmed. *)
Definition value_trimmed (v : Value) : Prop :=
  match v with
  | Str s => trimmed s = true
  | StrList l => Forall (fun s => trimmed s = true) l
  end.

(** The line of cells a row gives under a header: the flattened value
    under each field name, the empty string where the row has none. *)
Definition csv_cells (fieldnames : list string) (row : Row) : list string :=
  map (fun key =>
         match Bs4.dict_get row key with
         | Some v => flatten v
         | None => EmptyString
         end) fieldnames.

(** * Properties *)

(** ** Facts about strings *)

Lemma append_nil_r (s : string) : s ++ EmptyString = s.
Proof. induction s as [|c s IH]; simpl; [reflexivity | now rewrite IH]. Qed.

Lemma append_assoc (a b c : string) : (a ++ b) ++ c = a ++ b ++ c.
Proof. induction a as [|x a IH]; simpl; [reflexivity | now rewrite IH]. Qed.

Lemma append_truthy_r (a b : string) :
  PyStr.truthy b = true -> PyStr.truthy (a ++ b) = true.
Proof.
  destruct a as [|x a]; simpl; [trivial | reflexivity].
Qed.

Lemma startswith_app (p r : string) : PyStr.startswith (p ++ r) p = true.
Proof.
  unfold PyStr.startswith.
  induction p as [|c p IH]; simpl; [now destruct r |].
  destruct (ascii_dec c c) as [_ | ne]; [exact IH | now elim ne].
Qed.

Lemma startswith_inv (p s : string) :
  PyStr.startswith s p = true -> exists r, s = p ++ r.
Proof.
  unfold PyStr.startswith. revert s.
  induction p as [|c p IH]; intros s H.
  - now exists s.
  - destruct s as [|d s]; simpl in H; [discriminate |].
    destruct (ascii_dec c d) as [-> | _]; [| discriminate].
    destruct (IH _ H) as [r ->]. now exists r.
Qed.

Lemma endswith_last (s : string) (c : ascii) :
  PyStr.endswith s (String c EmptyString)
  = match last_char s with
    | Some d => Ascii.eqb d c
    | None => false
    end.
Proof.
  induction s as [|a s IH]; [reflexivity |].
  change (PyStr.endswith (String a s) (String c EmptyString))
    with ((String a s =? String c EmptyString)
          || PyStr.endswith s (String c EmptyString)).
  rewrite IH. destruct s as [|b s']; simpl; now destruct (Ascii.eqb a c).
Qed.

Lemma last_char_app (s t : string) :
  t <> EmptyString -> last_char (s ++ t) = last_char t.
Proof.
  intros Ht. induction s as [|a s IH]; [reflexivity |].
  simpl. rewrite IH.
  destruct (s ++ t) eqn:E; [| reflexivity].
  destruct s; simpl in E; [now elim Ht | discriminate].
Qed.

Lemma all_chars_last (p : ascii -> bool) (s : string) (c : ascii) :
  all_chars p s = true -> last_char s = Some c -> p c = true.
Proof.
  induction s as [|a s IH]; simpl; [discriminate |].
  intros H L. apply andb_true_iff in H as [Ha Hs].
  destruct s as [|b s']; [now inversion L; subst | now apply IH].
Qed.

Lemma all_chars_ext (p q : ascii -> bool) (s : string) :
  (forall c, p c = q c) -> all_chars p s = all_chars q s.
Proof.
  intros E. induction s as [|c s IH]; simpl; [reflexivity | now rewrite E, IH].
Qed.

Lemma rstrip_by_ext (p q : ascii -> bool) (s : string) :
  (forall c, p c = q c) -> PyStr.rstrip_by p s = PyStr.rstrip_by q s.
Proof.
  intros E. induction s as [|c s IH]; simpl; [reflexivity | now rewrite E, IH].
Qed.

Lemma rstrip_by_all (p : ascii -> bool) (t : string) :
  all_chars p t = true -> PyStr.rstrip_by p t = EmptyString.
Proof.
  induction t as [|c t IH]; simpl; [reflexivity |].
  intros H. apply andb_true_iff in H as [Hc Ht].
  now rewrite (IH Ht), Hc.
Qed.

Lemma rstrip_by_app_all (p : ascii -> bool) (s t : string) :
  all_chars p t = true -> PyStr.rstrip_by p (s ++ t) = PyStr.rstrip_by p s.
Proof.
  intros Ht. induction s as [|c s IH]; simpl.
  - now apply rstrip_by_all.
  - now rewrite IH.
Qed.

Lemma rstrip_by_fixed (p : ascii -> bool) (s : string) :
  match last_char s with Some c => p c | None => false end = false ->
  PyStr.rstrip_by p s = s.
Proof.
  induction s as [|a s IH]; [reflexivity |].
  destruct s as [|b s'].
  - simpl. now intros ->.
  - intros H. change (last_char (String a (String b s')))
      with (last_char (String b s')) in H.
    specialize (IH H).
    change (PyStr.rstrip_by p (String a (String b s')))
      with (match PyStr.rstrip_by p (String b s') with
            | EmptyString => if p a then EmptyString else String a EmptyString
            | String _ _ as r' => String a r'
            end).
    now rewrite IH.
Qed.

(** Stripping the slashes off [stem ++ slashes] leaves [stem]. *)
Lemma rstrip_slashes (stem slashes : string) :
  all_chars is_slash slashes = true ->
  PyStr.endswith stem "/" = false ->
  PyStr.rstrip (stem ++ slashes) "/" = stem.
Proof.
  intros Hs He. unfold PyStr.rstrip.
  rewrite (rstrip_by_ext _ is_slash)
    by (intros c; simpl; apply orb_false_r).
  rewrite rstrip_by_app_all by exact Hs.
  apply rstrip_by_fixed. now rewrite endswith_last in He.
Qed.

Lemma rsplit1_absent (s : string) (sep : ascii) :
  all_chars (fun c => negb (Ascii.eqb c sep)) s = true ->
  PyStr.rsplit1 s sep = [s].
Proof.
  induction s as [|c s IH]; simpl; [reflexivity |].
  intros H. apply andb_true_iff in H as [Hc Hs].
  rewrite (IH Hs). apply negb_true_iff in Hc. now rewrite Hc.
Qed.

(** [rsplit] cuts at the last separator. *)
Lemma rsplit1_last (dir seg : string) (sep : ascii) :
  all_chars (fun c => negb (Ascii.eqb c sep)) seg = true ->
  PyStr.rsplit1 (dir ++ String sep seg) sep = [dir; seg].
Proof.
  intros H. induction dir as [|c dir IH]; simpl.
  - now rewrite (rsplit1_absent _ _ H), Ascii.eqb_refl.
  - now rewrite IH.
Qed.

Lemma endswith_slashes (stem slashes : string) :
  slashes <> EmptyString -> all_chars is_slash slashes = true ->
  PyStr.endswith (stem ++ slashes) "/" = true.
Proof.
  intros Hne Hall. rewrite endswith_last, last_char_app by exact Hne.
  destruct (last_char slashes) as [d|] eqn:L.
  - exact (all_chars_last _ _ _ Hall L).
  - destruct slashes as [|a [|b r]]; simpl in L; try discriminate.
    + now elim Hne.
    + clear -L. revert b L. induction r as [|x r IH]; intros b L.
      * discriminate.
      * simpl in L. now apply (IH x).
Qed.

(** ** The URL of the next page *)

Section NextUrl.

Variable w : World.

Lemma next_url_absolute (cur h : string) :
  absolute h = true -> next_url w cur h = Ok h.
Proof. unfold next_url, absolute. now intros ->. Qed.

Lemma next_url_under_path (stem slashes h : string) :
  absolute h = false -> PyStr.startswith h "/" = true ->
  slashes <> EmptyString -> all_chars is_slash slashes = true ->
  PyStr.endswith stem "/" = false ->
  next_url w (stem ++ slashes) h = Ok (stem ++ h).
Proof.
  intros Ha Hh Hne Hall Hstem. unfold next_url. unfold absolute in Ha.
  rewrite Ha, Hh, (endswith_slashes _ _ Hne Hall). simpl.
  now rewrite rstrip_slashes.
Qed.

Lemma next_url_rooted (cur h : string) :
  absolute h = false -> PyStr.startswith h "/" = true ->
  PyStr.endswith cur "/" = false ->
  next_url w cur h = (root <- site_root w cur ;; Ok (root ++ h)).
Proof.
  intros Ha Hh Hc. unfold next_url, site_root. unfold absolute in Ha.
  rewrite Ha, Hh, Hc. simpl. now destruct (urlparse w cur).
Qed.

Lemma next_url_in_directory (cur h : string) :
  absolute h = false -> PyStr.startswith h "/" = false ->
  PyStr.endswith cur "/" = true ->
  next_url w cur h = Ok (cur ++ h).
Proof.
  intros Ha Hh Hc. unfold next_url. unfold absolute in Ha.
  now rewrite Ha, Hh, Hc.
Qed.

Lemma next_url_sibling (dir seg h : string) :
  absolute h = false -> PyStr.startswith h "/" = false ->
  PyStr.endswith (dir ++ "/" ++ seg) "/" = false ->
  slash_free seg = true ->
  next_url w (dir ++ "/" ++ seg) h = Ok (dir ++ "/" ++ h).
Proof.
  intros Ha Hh Hc Hseg. unfold next_url. unfold absolute in Ha.
  rewrite Ha, Hh, Hc. simpl.
  change (dir ++ String "/" seg) with (dir ++ String "/"%char seg).
  now rewrite (rsplit1_last dir seg "/" Hseg).
Qed.

(** Without any slash in the current URL the last branch appends to it. *)
Lemma next_url_no_slash (cur h : string) :
  absolute h = false -> PyStr.startswith h "/" = false ->
  slash_free cur = true ->
  next_url w cur h = Ok (cur ++ "/" ++ h).
Proof.
  intros Ha Hh Hc. unfold next_url. unfold absolute in Ha.
  rewrite Ha, Hh. simpl.
  assert (E : PyStr.endswith cur "/" = false).
  { rewrite endswith_last. destruct (last_char cur) as [d|] eqn:L; [| reflexivity].
    apply (all_chars_last _ _ _ Hc) in L. now apply negb_true_iff in L. }
  rewrite E. now rewrite (rsplit1_absent cur "/" Hc).
Qed.

(** The resolved URL is never empty when the href is not. *)
Lemma next_url_truthy (cur h url : string) :
  PyStr.truthy h = true -> next_url w cur h = Ok url ->
  PyStr.truthy url = true.
Proof.
  intros Hh. unfold next_url.
  destruct (_ || _); [now intros [= <-] |].
  destruct (_ && _); [intros [= <-]; now apply append_truthy_r |].
  destruct (PyStr.startswith h "/").
  - destruct (urlparse w cur); simpl; [| discriminate].
    intros [= <-]. now apply append_truthy_r.
  - destruct (PyStr.endswith cur "/"); intros [= <-].
    + now apply append_truthy_r.
    + now rewrite append_truthy_r.
Qed.

End NextUrl.

(** With a scheme and a host, the rebuilt root is [scheme://host]. *)
Lemma urlunparse_root (s n : string) :
  PyStr.truthy n = true -> PyStr.truthy s = true ->
  Urllib.urlunparse
    (Urllib.mkParseResult s n EmptyString EmptyString EmptyString EmptyString)
  = s ++ "://" ++ n.
Proof.
  intros Hn Hs. unfold Urllib.urlunparse, Urllib.urlunsplit. simpl.
  rewrite Hn, Hs. simpl. now rewrite append_nil_r.
Qed.

Lemma last_char_some (s : string) :
  s <> EmptyString -> exists d, last_char s = Some d.
Proof.
  induction s as [|a s IH]; intros H; [now elim H |].
  destruct s as [|b s']; [now exists a |].
  apply IH. discriminate.
Qed.

Lemma endswith_slash_free (s t : string) :
  t <> EmptyString -> slash_free t = true ->
  PyStr.endswith (s ++ t) "/" = false.
Proof.
  intros Hne Hfree. rewrite endswith_last, last_char_app by exact Hne.
  destruct (last_char_some t Hne) as [d L]. rewrite L.
  apply (all_chars_last _ _ _ Hfree) in L. now apply negb_true_iff in L.
Qed.

(** C1. The next URL follows the four branches: an href starting with
    [http://] or [https://] is taken as it is; otherwise a rooted href
    after a current URL ending in slashes is put behind the current URL
    without those slashes; otherwise a rooted href is put behind scheme
    and authority of the current URL; otherwise the href is put behind
    the current URL when that ends with a slash, and else behind the part
    of the current URL up to and including its last slash. *)
Theorem next_url_four_branches (w : World) (cur h : string) :
  (absolute h = true -> next_url w cur h = Ok h) /\
  (absolute h = false ->
   (PyStr.startswith h "/" = true ->
    (forall stem slashes,
        cur = stem ++ slashes -> slashes <> EmptyString ->
        all_chars is_slash slashes = true ->
        PyStr.endswith stem "/" = false ->
        next_url w cur h = Ok (stem ++ h)) /\
    (PyStr.endswith cur "/" = false ->
     next_url w cur h = (root <- site_root w cur ;; Ok (root ++ h)) /\
     forall parsed,
       urlparse w cur = Ok parsed ->
       PyStr.truthy (Urllib.scheme parsed) = true ->
       PyStr.truthy (Urllib.netloc parsed) = true ->
       next_url w cur h
       = Ok ((Urllib.scheme parsed ++ "://" ++ Urllib.netloc parsed) ++ h))) /\
   (PyStr.startswith h "/" = false ->
    (PyStr.endswith cur "/" = true -> next_url w cur h = Ok (cur ++ h)) /\
    (PyStr.endswith cur "/" = false ->
     forall dir seg,
       cur = dir ++ "/" ++ seg -> slash_free seg = true ->
       next_url w cur h = Ok (dir ++ "/" ++ h)))).
Proof.
  split; [apply next_url_absolute |].
  intros Ha. split; intros Hh; split.
  - intros stem slashes -> Hne Hall Hstem. now apply next_url_under_path.
  - intros Hc. split; [now apply next_url_rooted |].
    intros parsed Hp Hs Hn.
    rewrite next_url_rooted by assumption.
    unfold site_root. rewrite Hp. simpl bind.
    now rewrite urlunparse_root.
  - intros Hc. now apply next_url_in_directory.
  - intros Hc dir seg -> Hseg. now apply next_url_sibling.
Qed.

Lemma next_url_four_branches_witness :
  next_url Demo.site "http://example.com/a/" "https://other.org/x"
  = Ok "https://other.org/x" /\
  next_url Demo.site "http://example.com/a//" "/p2"
  = Ok "http://example.com/a/p2" /\
  next_url Demo.site "http://example.com/a/b?q=1" "/p2"
  = Ok "http://example.com/p2" /\
  next_url Demo.site "http://example.com/a/" "p2"
  = Ok "http://example.com/a/p2" /\
  next_url Demo.site "http://example.com/a/b" "p2"
  = Ok "http://example.com/a/p2".
Proof.
  split; [| split; [| split; [| split]]].
  - apply (next_url_four_branches Demo.site
             "http://example.com/a/" "https://other.org/x").
    reflexivity.
  - destruct (next_url_four_branches Demo.site
                "http://example.com/a//" "/p2") as [_ H].
    destruct (H eq_refl) as [H' _]. destruct (H' eq_refl) as [H2 _].
    apply (H2 "http://example.com/a" "//"); try reflexivity. discriminate.
  - destruct (next_url_four_branches Demo.site
                "http://example.com/a/b?q=1" "/p2") as [_ H].
    destruct (H eq_refl) as [H' _]. destruct (H' eq_refl) as [_ H3].
    destruct (H3 eq_refl) as [_ H3'].
    apply (H3' (Urllib.mkParseResult "http" "example.com" "/a/b?q=1"
                  EmptyString EmptyString EmptyString)); reflexivity.
  - destruct (next_url_four_branches Demo.site
                "http://example.com/a/" "p2") as [_ H].
    destruct (H eq_refl) as [_ H']. destruct (H' eq_refl) as [H4 _].
    apply H4. reflexivity.
  - destruct (next_url_four_branches Demo.site
                "http://example.com/a/b" "p2") as [_ H].
    destruct (H eq_refl) as [_ H']. destruct (H' eq_refl) as [_ H5].
    apply (H5 eq_refl "http://example.com/a" "b"); reflexivity.
Defined.

(** C9. When the current URL is a scheme, [://] and a host without any
    slash, and the href is relative, the fourth branch cuts the current
    URL at its last slash, so the host is lost: the next URL is the
    scheme, [://] and the href. *)
Theorem next_url_drops_host (w : World) (scheme host h : string) :
  slash_free scheme = true -> slash_free host = true ->
  absolute h = false -> PyStr.startswith h "/" = false ->
  next_url w (scheme ++ "://" ++ host) h = Ok (scheme ++ "://" ++ h).
Proof.
  intros _ Hhost Ha Hh. destruct host as [|a r].
  - rewrite next_url_in_directory; try assumption.
    + now rewrite append_assoc.
    + rewrite endswith_last, last_char_app by discriminate. reflexivity.
  - replace (scheme ++ "://" ++ String a r)
      with ((scheme ++ ":/") ++ "/" ++ String a r)
      by (now rewrite append_assoc).
    rewrite next_url_sibling; try assumption.
    + now rewrite append_assoc.
    + rewrite <- append_assoc. apply endswith_slash_free; [discriminate | assumption].
Qed.

Lemma next_url_drops_host_witness :
  next_url Demo.site "http://example.com" "page2" = Ok "http://page2".
Proof.
  apply (next_url_drops_host Demo.site "http" "example.com" "page2");
    reflexivity.
Defined.

(** ** Field extraction *)

Lemma mapM_Forall2 {A B : Type} (f : A -> result B) (xs : list A) (ys : list B) :
  mapM f xs = Ok ys <-> Forall2 (fun x y => f x = Ok y) xs ys.
Proof.
  revert ys. induction xs as [|x xs IH]; intros ys; simpl.
  - split; [intros [= <-]; constructor | now inversion 1].
  - split.
    + destruct (f x) as [y|] eqn:Fx; simpl; [| discriminate].
      destruct (mapM f xs) as [ys'|]; simpl; [| discriminate].
      intros [= <-]. constructor; [exact Fx | now apply IH].
    + inversion 1 as [| x' y xs' ys' Fx Hrest]; subst.
      rewrite Fx. simpl. apply IH in Hrest. now rewrite Hrest.
Qed.

Lemma Forall2_map_r {A B : Type} (g : A -> B) (xs : list A) :
  Forall2 (fun x y => g x = y) xs (map g xs).
Proof. induction xs; simpl; now constructor. Qed.

Lemma extract_field_multiple (w : World) (item : Bs4.Tag) (fc : FieldCfg)
  (els : list Bs4.Tag) :
  multiple fc = true -> select w item (selector fc) = Ok els ->
  extract_field w item fc = (vs <- mapM (node_string fc) els ;; Ok (StrList vs)).
Proof.
  intros Hm Hs. unfold extract_field, node_string. rewrite Hm, Hs. simpl.
  destruct (attr_set fc) as [a|]; [reflexivity |].
  assert (E : mapM (fun el => Ok (Bs4.get_text_strip el)) els
              = Ok (map Bs4.get_text_strip els)).
  { apply mapM_Forall2. clear Hs. induction els; simpl; constructor; auto. }
  now rewrite E.
Qed.

Lemma extract_field_single (w : World) (item : Bs4.Tag) (fc : FieldCfg)
  (els : list Bs4.Tag) :
  multiple fc = false -> select w item (selector fc) = Ok els ->
  extract_field w item fc
  = match els with
    | [] => Ok (Str EmptyString)
    | el :: _ => s <- node_string fc el ;; Ok (Str s)
    end.
Proof.
  intros Hm Hs. unfold extract_field, select_one, node_string.
  rewrite Hm, Hs. simpl. destruct els as [|el rest]; simpl; [reflexivity |].
  now destruct (attr_set fc).
Qed.

(** The shape of the value follows the [multiple] flag. *)
Lemma extract_field_shape (w : World) (item : Bs4.Tag) (fc : FieldCfg) (v : Value) :
  extract_field w item fc = Ok v -> is_list v = multiple fc.
Proof.
  destruct (select w item (selector fc)) as [els|e] eqn:Hs.
  - destruct (multiple fc) eqn:Hm.
    + rewrite (extract_field_multiple w item fc els Hm Hs).
      destruct (mapM _ els); simpl; [now intros [= <-] | discriminate].
    + rewrite (extract_field_single w item fc els Hm Hs).
      destruct els as [|el rest]; [now intros [= <-] |].
      destruct (node_string fc el); simpl; [now intros [= <-] | discriminate].
  - unfold extract_field, select_one. rewrite Hs.
    now destruct (multiple fc).
Qed.

(** C4. A missing match or a missing attribute never raises: without a
    match a single field is the empty string and a multiple field the empty
    list; a matched node without the attribute gives the empty string; and
    a multiple field holds exactly one string per matched node, in order. *)
Theorem extract_field_missing (w : World) (item : Bs4.Tag) (fc : FieldCfg) :
  (multiple fc = false -> select w item (selector fc) = Ok [] ->
   extract_field w item fc = Ok (Str EmptyString)) /\
  (multiple fc = true -> select w item (selector fc) = Ok [] ->
   extract_field w item fc = Ok (StrList [])) /\
  (forall a el rest,
      multiple fc = false -> attr_set fc = Some a ->
      select w item (selector fc) = Ok (el :: rest) ->
      Bs4.get el a = None ->
      extract_field w item fc = Ok (Str EmptyString)) /\
  (forall a el, attr_set fc = Some a -> Bs4.get el a = None ->
                node_string fc el = Ok EmptyString) /\
  (forall els v,
      multiple fc = true -> select w item (selector fc) = Ok els ->
      extract_field w item fc = Ok v ->
      exists vs, v = StrList vs /\
                 Forall2 (fun el s => node_string fc el = Ok s) els vs) /\
  (forall a els,
      multiple fc = true -> attr_set fc = Some a ->
      select w item (selector fc) = Ok els ->
      (forall el, In el els ->
                  Bs4.get el a = None \/ exists s, Bs4.get el a = Some (Bs4.AttrStr s)) ->
      exists vs, extract_field w item fc = Ok (StrList vs) /\
                 List.length vs = List.length els).
Proof.
  repeat split.
  - intros Hm Hs. now rewrite (extract_field_single w item fc [] Hm Hs).
  - intros Hm Hs. now rewrite (extract_field_multiple w item fc [] Hm Hs).
  - intros a el rest Hm Ha Hs Hg.
    rewrite (extract_field_single w item fc _ Hm Hs).
    unfold node_string, get_strip. now rewrite Ha, Hg.
  - intros a el Ha Hg. unfold node_string, get_strip. now rewrite Ha, Hg.
  - intros els v Hm Hs. rewrite (extract_field_multiple w item fc els Hm Hs).
    destruct (mapM (node_string fc) els) as [vs|] eqn:E; simpl; [| discriminate].
    intros [= <-]. exists vs. split; [reflexivity | now apply mapM_Forall2].
  - intros a els Hm Ha Hs Hall.
    rewrite (extract_field_multiple w item fc els Hm Hs).
    assert (E : exists vs, mapM (node_string fc) els = Ok vs
                           /\ List.length vs = List.length els).
    { clear Hs. induction els as [|el els IH].
      - now exists [].
      - destruct IH as [vs [E L]]; [intros; apply Hall; now right |].
        assert (N : exists s, node_string fc el = Ok s).
        { unfold node_string, get_strip. rewrite Ha.
          destruct (Hall el (or_introl eq_refl)) as [-> | [s ->]]; eauto. }
        destruct N as [s N]. exists (s :: vs). simpl.
        rewrite N, E. simpl. now rewrite L. }
    destruct E as [vs [E L]]. exists vs. now rewrite E.
Qed.

Lemma extract_field_missing_witness :
  extract_field Demo.site Demo.page3 (mkFieldCfg "h3" None false)
  = Ok (Str EmptyString) /\
  extract_field Demo.site Demo.page3 (mkFieldCfg "h3" (Some "id") true)
  = Ok (StrList []) /\
  extract_field Demo.site Demo.links_item (mkFieldCfg "a" (Some "href") false)
  = Ok (Str EmptyString) /\
  (exists vs,
      extract_field Demo.site Demo.links_item (mkFieldCfg "a" (Some "href") true)
      = Ok (StrList vs) /\ List.length vs = 2).
Proof.
  split; [| split; [| split]].
  - apply (extract_field_missing Demo.site Demo.page3
             (mkFieldCfg "h3" None false)); reflexivity.
  - apply (extract_field_missing Demo.site Demo.page3
             (mkFieldCfg "h3" (Some "id") true)); reflexivity.
  - destruct (extract_field_missing Demo.site Demo.links_item
                (mkFieldCfg "a" (Some "href") false)) as (_ & _ & H & _).
    apply (H "href" Demo.bare_link [Demo.href_link]); reflexivity.
  - destruct (extract_field_missing Demo.site Demo.links_item
                (mkFieldCfg "a" (Some "href") true)) as (_ & _ & _ & _ & _ & H).
    apply (H "href" [Demo.bare_link; Demo.href_link]); try reflexivity.
    intros el [<- | [<- | []]]; [now left | right; now exists " /y "].
Defined.

(** ** Text extraction *)

Lemma lstrip_by_split (p : ascii -> bool) (s : string) :
  exists l, s = l ++ PyStr.lstrip_by p s /\ all_chars p l = true.
Proof.
  induction s as [|a s (l & E & Hl)]; simpl.
  - now exists EmptyString.
  - destruct (p a) eqn:Pa.
    + exists (String a l). simpl. now rewrite Pa, Hl, <- E.
    + now exists EmptyString.
Qed.

Lemma rstrip_by_split (p : ascii -> bool) (s : string) :
  exists r, s = PyStr.rstrip_by p s ++ r /\ all_chars p r = true.
Proof.
  induction s as [|a s (r & E & Hr)]; simpl.
  - now exists EmptyString.
  - destruct (PyStr.rstrip_by p s) as [|b t] eqn:R.
    + simpl in E. subst r. destruct (p a) eqn:Pa.
      * exists (String a s). simpl. now rewrite Pa, Hr.
      * now exists s.
    + exists r. simpl. split; [now rewrite E | exact Hr].
Qed.

Lemma lstrip_first (s : string) :
  not_space (first_char (PyStr.lstrip_by PyStr.isspace s)) = true.
Proof.
  induction s as [|a s IH]; simpl; [reflexivity |].
  destruct (PyStr.isspace a) eqn:Pa; [exact IH | simpl; now rewrite Pa].
Qed.

Lemma rstrip_last (s : string) :
  not_space (last_char (PyStr.rstrip_by PyStr.isspace s)) = true.
Proof.
  induction s as [|a s IH]; simpl; [reflexivity |].
  destruct (PyStr.rstrip_by PyStr.isspace s) as [|b t].
  - destruct (PyStr.isspace a) eqn:Pa; simpl; [reflexivity | now rewrite Pa].
  - exact IH.
Qed.

Lemma lstrip_keeps_last (s : string) :
  not_space (last_char s) = true ->
  not_space (last_char (PyStr.lstrip_by PyStr.isspace s)) = true.
Proof.
  induction s as [|a s IH]; [trivial |].
  intros H. cbn [PyStr.lstrip_by].
  destruct (PyStr.isspace a); [| exact H].
  destruct s as [|b t]; [reflexivity | now apply IH].
Qed.

Lemma strip_trimmed (s : string) : trimmed (PyStr.strip s) = true.
Proof.
  unfold trimmed, PyStr.strip. apply andb_true_iff. split.
  - apply lstrip_first.
  - apply lstrip_keeps_last, rstrip_last.
Qed.

(** What [strip] removes is whitespace at the two ends, nothing else. *)
Lemma strip_split (s : string) :
  exists l r, s = l ++ PyStr.strip s ++ r /\
              all_chars PyStr.isspace l = true /\
              all_chars PyStr.isspace r = true.
Proof.
  destruct (rstrip_by_split PyStr.isspace s) as (r & Er & Hr).
  destruct (lstrip_by_split PyStr.isspace (PyStr.rstrip_by PyStr.isspace s))
    as (l & El & Hl).
  exists l, r. repeat split; try assumption.
  unfold PyStr.strip. now rewrite <- append_assoc, <- El.
Qed.

Lemma trimmed_app (a b : string) :
  trimmed a = true -> trimmed b = true -> trimmed (a ++ b) = true.
Proof.
  unfold trimmed. intros Ha Hb.
  apply andb_true_iff in Ha as [Ha1 Ha2]. apply andb_true_iff in Hb as [Hb1 Hb2].
  destruct a as [|x a]; [simpl; now rewrite Hb1, Hb2 |].
  apply andb_true_iff. split; [exact Ha1 |].
  destruct b as [|y b]; [now rewrite append_nil_r |].
  now rewrite last_char_app.
Qed.

Lemma trimmed_join (l : list string) :
  Forall (fun s => trimmed s = true) l ->
  trimmed (PyStr.join EmptyString l) = true.
Proof.
  unfold PyStr.join. induction 1 as [|s l Hs Hl IH]; [reflexivity |].
  simpl. destruct l as [|s' l']; [exact Hs |].
  simpl append. now apply trimmed_app.
Qed.

Lemma get_text_strip_trimmed (t : Bs4.Tag) :
  trimmed (Bs4.get_text_strip t) = true.
Proof.
  unfold Bs4.get_text_strip. apply trimmed_join.
  apply Forall_forall. intros s Hin. apply filter_In in Hin as [Hin _].
  apply in_map_iff in Hin as (s0 & <- & _). apply strip_trimmed.
Qed.

(** One text string below the node: its stripped form is the text. *)
Lemma get_text_strip_single (t : Bs4.Tag) (s : string) :
  Bs4.all_strings t = [s] -> Bs4.get_text_strip t = PyStr.strip s.
Proof.
  intros E. unfold Bs4.get_text_strip. rewrite E. simpl.
  destruct (PyStr.strip s); reflexivity.
Qed.

(** C5, as the code has it. Without an attribute the string of a matched
    node is [get_text(strip=True)]: the text strings below the node (those
    of the class the node reads: ordinary text, or its own text for a
    [script], [style] or [template] node; never comments), each with the
    whitespace at its two ends removed, the empty ones left out, put
    together without a separator.  The result has no whitespace at
    its ends; whitespace inside a text string is kept as it is. *)
Theorem extract_text_strips_each_string (w : World) (item : Bs4.Tag)
  (fc : FieldCfg) :
  attr_set fc = None ->
  (forall el rest,
      multiple fc = false -> select w item (selector fc) = Ok (el :: rest) ->
      extract_field w item fc = Ok (Str (Bs4.get_text_strip el))) /\
  (forall els,
      multiple fc = true -> select w item (selector fc) = Ok els ->
      extract_field w item fc = Ok (StrList (map Bs4.get_text_strip els))) /\
  (forall el,
      Bs4.get_text_strip el
      = PyStr.join EmptyString
          (filter PyStr.truthy (map PyStr.strip (Bs4.all_strings el))) /\
      trimmed (Bs4.get_text_strip el) = true /\
      forall s, Bs4.all_strings el = [s] ->
                Bs4.get_text_strip el = PyStr.strip s) /\
  (forall s,
      trimmed (PyStr.strip s) = true /\
      exists l r, s = l ++ PyStr.strip s ++ r /\
                  all_chars PyStr.isspace l = true /\
                  all_chars PyStr.isspace r = true).
Proof.
  intros Ha. split; [| split; [| split]].
  - intros el rest Hm Hs. rewrite (extract_field_single w item fc _ Hm Hs).
    unfold node_string. now rewrite Ha.
  - intros els Hm Hs. rewrite (extract_field_multiple w item fc _ Hm Hs).
    assert (E : mapM (node_string fc) els = Ok (map Bs4.get_text_strip els)).
    { apply mapM_Forall2. unfold node_string. rewrite Ha.
      clear Hs. induction els; simpl; constructor; auto. }
    now rewrite E.
  - intros el. split; [reflexivity |].
    split; [apply get_text_strip_trimmed | apply get_text_strip_single].
  - intros s. split; [apply strip_trimmed | apply strip_split].
Qed.

Lemma extract_text_strips_each_string_witness :
  extract_field Demo.site Demo.spaced_item (mkFieldCfg "h2" None false)
  = Ok (Str "a  b") /\
  extract_field Demo.site Demo.nested_item (mkFieldCfg "h2" None true)
  = Ok (StrList ["Helloworld"]).
Proof.
  split.
  - destruct (extract_text_strips_each_string Demo.site Demo.spaced_item
                (mkFieldCfg "h2" None false) eq_refl) as (H & _).
    apply (H Demo.spaced_heading []); reflexivity.
  - destruct (extract_text_strips_each_string Demo.site Demo.nested_item
                (mkFieldCfg "h2" None true) eq_refl) as (_ & H & _).
    apply (H [Demo.nested_heading]); reflexivity.
Defined.

(** C5, as the specification words it, fails: the two spaces inside the
    one text string of [<h2>a  b</h2>] are kept, where collapsing runs of
    whitespace gives [a b]. *)
Lemma visible_text_not_extracted :
  ~ (forall (w : World) (item : Bs4.Tag) (fc : FieldCfg) (el : Bs4.Tag)
            (rest : list Bs4.Tag),
        attr_set fc = None -> multiple fc = false ->
        select w item (selector fc) = Ok (el :: rest) ->
        extract_field w item fc = Ok (Str (visible_text el))).
Proof.
  intros H.
  specialize (H Demo.site Demo.spaced_item (mkFieldCfg "h2" None false)
                Demo.spaced_heading [] eq_refl eq_refl eq_refl).
  vm_compute in H. discriminate H.
Qed.

(** The same two nodes, side by side with the text a browser shows. *)
Example spaced_heading_text :
  Bs4.get_text_strip Demo.spaced_heading = "a  b" /\
  visible_text Demo.spaced_heading = "a b" /\
  collapsed (Bs4.get_text_strip Demo.spaced_heading) = false.
Proof. repeat split. Qed.

Example nested_heading_text :
  Bs4.get_text_strip Demo.nested_heading = "Helloworld" /\
  visible_text Demo.nested_heading = "Hello world".
Proof. split; reflexivity. Qed.

(** The text of a script is read from the script itself, and left out,
    like the comment, from the block around it. *)
Example script_text :
  Bs4.get_text_strip Demo.inline_script = "var x = 1" /\
  Bs4.get_text_strip Demo.scripted_block = "Total".
Proof. split; reflexivity. Qed.

(** ** The loop of [scrape] *)

Section Loop.

Variable w : World.
Variable cfg : Config.

Local Abbreviation loop := (scrape_loop w cfg).

(** The accumulators only ever grow at the end: a run from any [results]
    and [requested] is the run from empty ones, put behind them. *)
Lemma scrape_loop_acc (fuel : nat) :
  forall url n acc req,
    loop fuel url n acc req
    = mkRun (status (loop fuel url n [] []))
        (acc ++ results (loop fuel url n [] []))%list
        (req ++ requested (loop fuel url n [] []))%list.
Proof.
  induction fuel as [|fuel IH]; intros url n acc req; simpl.
  - destruct (negb (PyStr.truthy url)); simpl; now rewrite !app_nil_r.
  - destruct (negb (PyStr.truthy url)); simpl; [now rewrite !app_nil_r |].
    destruct (fetch_page w n url) as [soup|]; simpl; [| now rewrite app_nil_r].
    destruct (page_rows w cfg soup) as [rows|e]; simpl; [| now rewrite app_nil_r].
    destruct (advance w cfg soup url n) as [|e|next]; simpl; try reflexivity.
    rewrite (IH next (n + 1)%Z (acc ++ rows)%list (req ++ [url])%list).
    rewrite (IH next (n + 1)%Z rows [url]). simpl.
    now rewrite <- !app_assoc.
Qed.

(** One pass through the loop, from empty accumulators. *)
Lemma scrape_loop_step (fuel : nat) (url : string) (n : Z) :
  PyStr.truthy url = true ->
  loop (S fuel) url n [] []
  = match fetch_page w n url with
    | None => mkRun Done [] [url]
    | Some soup =>
        match page_rows w cfg soup with
        | Raise e => mkRun (Raised e) [] [url]
        | Ok rows =>
            match advance w cfg soup url n with
            | Finish => mkRun Done rows [url]
            | Fail e => mkRun (Raised e) rows [url]
            | Goto next =>
                mkRun (status (loop fuel next (n + 1)%Z [] []))
                  (rows ++ results (loop fuel next (n + 1)%Z [] []))%list
                  (url :: requested (loop fuel next (n + 1)%Z [] []))
            end
        end
    end.
Proof.
  intros Hu. simpl. rewrite Hu. simpl.
  destruct (fetch_page w n url) as [soup|]; [| reflexivity].
  destruct (page_rows w cfg soup) as [rows|e]; [| reflexivity].
  destruct (advance w cfg soup url n) as [|e|next]; try reflexivity.
  now rewrite scrape_loop_acc.
Qed.

Lemma scrape_loop_empty_url (fuel : nat) (url : string) (n : Z) :
  PyStr.truthy url = false -> loop fuel url n [] [] = mkRun Done [] [].
Proof. intros Hu. destruct fuel; simpl; now rewrite Hu. Qed.

Lemma scrape_loop_no_fuel (url : string) (n : Z) :
  PyStr.truthy url = true -> loop 0 url n [] [] = mkRun OutOfFuel [] [].
Proof. intros Hu. simpl. now rewrite Hu. Qed.

(** Going on to a next page means the page limit is not reached, and the
    next URL is not empty. *)
Lemma advance_goto (soup : Bs4.Tag) (url next : string) (n : Z) :
  advance w cfg soup url n = Goto next ->
  PyStr.truthy next = true /\
  forall m, max_pages_opt cfg = Some m -> (n < m)%Z.
Proof.
  unfold advance. intros H. split.
  - destruct (match max_pages_opt cfg with Some _ => _ | None => _ end);
      [discriminate |].
    destruct (next_page_selector (pagination cfg)) as [sel|]; [| discriminate].
    destruct (negb (PyStr.truthy sel)); [discriminate |].
    destruct (select_one w soup sel) as [[link|]|]; try discriminate.
    destruct (Bs4.get link "href") as [[href|l]|] eqn:G; simpl in H;
      try discriminate.
    + destruct (PyStr.truthy href) eqn:T; simpl in H; [| discriminate].
      destruct (next_url w url href) as [u|] eqn:N; [| discriminate].
      injection H as <-. exact (next_url_truthy w url href u T N).
    + now destruct (negb _).
  - intros m Hm. rewrite Hm in H.
    destruct (n >=? m)%Z eqn:C; [discriminate | lia].
Qed.

(** The rows of a run that did not raise are the rows of the pages it
    fetched, page after page. *)
Lemma scrape_loop_rows (fuel : nat) :
  forall url n,
    (forall e, status (loop fuel url n [] []) <> Raised e) ->
    exists pages_rows,
      results (loop fuel url n [] []) = concat pages_rows /\
      Forall2 (fun soup rows => page_rows w cfg soup = Ok rows)
        (pages_from w n (requested (loop fuel url n [] []))) pages_rows.
Proof.
  induction fuel as [|fuel IH]; intros url n Hst;
    destruct (PyStr.truthy url) eqn:Hu;
    try (rewrite scrape_loop_empty_url by exact Hu; exists []; now split).
  - rewrite scrape_loop_no_fuel by exact Hu. exists []. now split.
  - rewrite scrape_loop_step in * by exact Hu. simpl.
    destruct (fetch_page w n url) as [soup|] eqn:F.
    + destruct (page_rows w cfg soup) as [rows|e] eqn:P;
        [| now elim (Hst e)].
      destruct (advance w cfg soup url n) as [|e|next]; simpl.
      * rewrite F. exists [rows]. simpl. rewrite app_nil_r. now repeat constructor.
      * now elim (Hst e).
      * rewrite F. destruct (IH next (n + 1)%Z Hst) as (prs & E & Hall).
        exists (rows :: prs). simpl. rewrite E. split; [reflexivity |].
        now constructor.
    + simpl. rewrite F. exists []. now split.
Qed.


(** With a page limit [m], at most [m - n + 1] requests are made from
    page [n] on, and that much fuel is enough to leave the loop. *)
Lemma scrape_loop_bound (m : Z) (fuel : nat) :
  max_pages_opt cfg = Some m ->
  forall url n,
    (n <= m)%Z ->
    (List.length (requested (loop fuel url n [] [])) <= Z.to_nat (m - n + 1))%nat /\
    ((Z.to_nat (m - n + 1) <= fuel)%nat ->
     status (loop fuel url n [] []) <> OutOfFuel).
Proof.
  intros Hm. induction fuel as [|fuel IH]; intros url n Hn;
    destruct (PyStr.truthy url) eqn:Hu;
    try (rewrite scrape_loop_empty_url by exact Hu; simpl;
         split; [lia | discriminate]).
  - rewrite scrape_loop_no_fuel by exact Hu. simpl. split; lia.
  - rewrite scrape_loop_step by exact Hu.
    destruct (fetch_page w n url) as [soup|]; simpl; [| split; [lia | discriminate]].
    destruct (page_rows w cfg soup) as [rows|e]; simpl;
      [| split; [lia | discriminate]].
    destruct (advance w cfg soup url n) as [|e|next] eqn:A; simpl;
      try (split; [lia | discriminate]).
    destruct (advance_goto _ _ _ _ A) as [_ Hlt]. specialize (Hlt m Hm).
    destruct (IH next (n + 1)%Z ltac:(lia)) as [Hlen Hst].
    replace (m - (n + 1) + 1)%Z with (m - n)%Z in * by lia.
    split; [lia |]. intros Hf. apply Hst. lia.
Qed.

(** When every page a run asks for is fetched and links on, the loop goes
    on until the page limit stops it, or for ever without one. *)
Section EveryPageLinksOn.

Variable sel : string.
Hypothesis Hsel : next_page_selector (pagination cfg) = Some sel.
Hypothesis Hsel_truthy : PyStr.truthy sel = true.

Lemma requested_first (fuel : nat) (url : string) (n : Z) :
  PyStr.truthy url = true ->
  nth_error (requested (loop (S fuel) url n [] [])) 0 = Some url.
Proof.
  intros Hu. rewrite scrape_loop_step by exact Hu.
  destruct (fetch_page w n url) as [soup|]; [| reflexivity].
  destruct (page_rows w cfg soup) as [rows|e]; [| reflexivity].
  now destruct (advance w cfg soup url n).
Qed.

Lemma advance_good (n : Z) (url : string) :
  good_page w cfg sel n url ->
  exists soup rows next,
    fetch_page w n url = Some soup /\
    page_rows w cfg soup = Ok rows /\
    advance w cfg soup url n
    = if match max_pages_opt cfg with
         | Some m => (n >=? m)%Z
         | None => false
         end
      then Finish else Goto next.
Proof.
  intros (soup & rows & link & href & next & F & P & S & G & T & N).
  exists soup, rows, next. repeat split; try assumption.
  unfold advance. rewrite Hsel, Hsel_truthy, S, G. simpl. now rewrite T, N.
Qed.

Lemma scrape_loop_exact (m : Z) (fuel : nat) :
  max_pages_opt cfg = Some m ->
  forall url n,
    PyStr.truthy url = true -> (n <= m)%Z ->
    (Z.to_nat (m - n + 1) <= fuel)%nat ->
    (forall k u,
        nth_error (requested (loop fuel url n [] [])) k = Some u ->
        good_page w cfg sel (n + Z.of_nat k)%Z u) ->
    status (loop fuel url n [] []) = Done /\
    List.length (requested (loop fuel url n [] [])) = Z.to_nat (m - n + 1).
Proof.
  intros Hm. induction fuel as [|fuel IH]; intros url n Hu Hn Hf Hgood; [lia |].
  pose proof (Hgood 0%nat url (requested_first fuel url n Hu)) as G0.
  rewrite Z.add_0_r in G0.
  destruct (advance_good n url G0) as (soup & rows & next & F & P & A).
  rewrite scrape_loop_step in * by exact Hu.
  rewrite F, P in *. rewrite Hm in A.
  destruct (n >=? m)%Z eqn:C; rewrite A in *.
  - simpl. split; [reflexivity |]. replace (m - n + 1)%Z with 1%Z by lia.
    reflexivity.
  - destruct (advance_goto _ _ _ _ A) as [Hnext _].
    destruct (IH next (n + 1)%Z Hnext ltac:(lia) ltac:(lia)) as [St Len].
    { intros k u Hk.
      replace (n + 1 + Z.of_nat k)%Z with (n + Z.of_nat (S k))%Z by lia.
      apply Hgood. exact Hk. }
    simpl. rewrite Len. split; [exact St | lia].
Qed.

Lemma scrape_loop_unbounded (fuel : nat) :
  max_pages_opt cfg = None ->
  forall url n,
    PyStr.truthy url = true ->
    (forall k u,
        nth_error (requested (loop fuel url n [] [])) k = Some u ->
        good_page w cfg sel (n + Z.of_nat k)%Z u) ->
    status (loop fuel url n [] []) = OutOfFuel /\
    List.length (requested (loop fuel url n [] [])) = fuel.
Proof.
  intros Hm. induction fuel as [|fuel IH]; intros url n Hu Hgood.
  - rewrite scrape_loop_no_fuel by exact Hu. now split.
  - pose proof (Hgood 0%nat url (requested_first fuel url n Hu)) as G0.
    rewrite Z.add_0_r in G0.
    destruct (advance_good n url G0) as (soup & rows & next & F & P & A).
    rewrite scrape_loop_step in * by exact Hu.
    rewrite F, P in *. rewrite Hm in A. rewrite A in *.
    destruct (advance_goto _ _ _ _ A) as [Hnext _].
    destruct (IH next (n + 1)%Z Hnext) as [St Len].
    { intros k u Hk.
      replace (n + 1 + Z.of_nat k)%Z with (n + Z.of_nat (S k))%Z by lia.
      apply Hgood. exact Hk. }
    simpl. now rewrite Len.
Qed.

End EveryPageLinksOn.

End Loop.

(** ** Pagination *)

Lemma max_pages_opt_some (cfg : Config) (N : Z) :
  (0 < N)%Z -> max_pages (pagination cfg) = N -> max_pages_opt cfg = Some N.
Proof.
  intros HN E. unfold max_pages_opt. rewrite E.
  destruct (N =? 0)%Z eqn:C; [lia | reflexivity].
Qed.

Lemma max_pages_opt_none (cfg : Config) :
  max_pages (pagination cfg) = 0%Z -> max_pages_opt cfg = None.
Proof. intros E. unfold max_pages_opt. now rewrite E. Qed.

(** C2. With [max_pages] a positive [N], no run makes more than [N]
    requests and [N] passes are enough to leave the loop; when every page
    the run asks for is fetched and holds a valid next link the requests
    are exactly [N], the link on page [N] notwithstanding.  With
    [max_pages] absent or zero there is no limit: while every page asked
    for is fetched and links on, the loop is still running after any
    number of passes, with as many requests made. *)
Theorem max_pages_bounds_fetches (w : World) (cfg : Config) :
  (forall N,
      (0 < N)%Z -> max_pages (pagination cfg) = N ->
      (forall fuel,
          (List.length (requested (scrape_run w cfg fuel)) <= Z.to_nat N)%nat) /\
      (forall fuel,
          (Z.to_nat N <= fuel)%nat ->
          status (scrape_run w cfg fuel) <> OutOfFuel) /\
      (forall sel fuel,
          PyStr.truthy (start_url cfg) = true ->
          next_page_selector (pagination cfg) = Some sel ->
          PyStr.truthy sel = true ->
          (Z.to_nat N <= fuel)%nat ->
          (forall k url,
              nth_error (requested (scrape_run w cfg fuel)) k = Some url ->
              good_page w cfg sel (Z.of_nat k + 1)%Z url) ->
          status (scrape_run w cfg fuel) = Done /\
          List.length (requested (scrape_run w cfg fuel)) = Z.to_nat N)) /\
  (max_pages (pagination cfg) = 0%Z ->
   forall sel fuel,
     PyStr.truthy (start_url cfg) = true ->
     next_page_selector (pagination cfg) = Some sel ->
     PyStr.truthy sel = true ->
     (forall k url,
         nth_error (requested (scrape_run w cfg fuel)) k = Some url ->
         good_page w cfg sel (Z.of_nat k + 1)%Z url) ->
     status (scrape_run w cfg fuel) = OutOfFuel /\
     List.length (requested (scrape_run w cfg fuel)) = fuel).
Proof.
  split.
  - intros N HN E. pose proof (max_pages_opt_some cfg N HN E) as Hm.
    unfold scrape_run. split; [| split].
    + intros fuel.
      destruct (scrape_loop_bound w cfg N fuel Hm (start_url cfg) 1%Z ltac:(lia))
        as [H _].
      now replace (N - 1 + 1)%Z with N in H by lia.
    + intros fuel Hf.
      destruct (scrape_loop_bound w cfg N fuel Hm (start_url cfg) 1%Z ltac:(lia))
        as [_ H].
      apply H. now replace (N - 1 + 1)%Z with N by lia.
    + intros sel fuel Hstart Hsel Hst Hf Hgood.
      assert (Hf' : (Z.to_nat (N - 1 + 1) <= fuel)%nat)
        by now replace (N - 1 + 1)%Z with N by lia.
      destruct (scrape_loop_exact w cfg sel Hsel Hst N fuel Hm
                  (start_url cfg) 1%Z Hstart ltac:(lia) Hf') as [St Len].
      { intros k u Hk.
        replace (1 + Z.of_nat k)%Z with (Z.of_nat k + 1)%Z by lia.
        now apply Hgood. }
      replace (N - 1 + 1)%Z with N in Len by lia. now split.
  - intros E sel fuel Hstart Hsel Hst Hgood. unfold scrape_run.
    apply (scrape_loop_unbounded w cfg sel Hsel Hst fuel
             (max_pages_opt_none cfg E)); [exact Hstart |].
    intros k u Hk.
    replace (1 + Z.of_nat k)%Z with (Z.of_nat k + 1)%Z by lia.
    now apply Hgood.
Qed.

Lemma endless_good (fs : list (string * FieldCfg)) (m : Z) (n : Z) (url : string) :
  fs = Demo.title_only ->
  good_page Demo.endless (Demo.config fs m) "a" n url.
Proof.
  intros ->.
  exists Demo.endless_page, [[("title", Str "Again")]],
    (Bs4.mkTag "a" [("href", Bs4.AttrStr "http://example.com/more")]
       [Demo.text_node "next"]),
    "http://example.com/more", "http://example.com/more".
  repeat split.
Qed.

(** On the three-page site with a limit of two, the two pages asked for
    both link on (the third does not, and is never asked for). *)
Lemma site_two_pages_good (k : nat) (url : string) :
  nth_error (requested (scrape_run Demo.site (Demo.config Demo.title_only 2) 10)) k
  = Some url ->
  good_page Demo.site (Demo.config Demo.title_only 2) "a" (Z.of_nat k + 1)%Z url.
Proof.
  destruct k as [|[|[|k]]]; intros H; vm_compute in H; try discriminate H;
    injection H as <-.
  - exists Demo.page1,
      [[("title", Str "First")]; [("title", Str "Second")]],
      (Bs4.mkTag "a" [("href", Bs4.AttrStr "/p2")] [Demo.text_node "next"]),
      "/p2", "http://example.com/p2".
    repeat split.
  - exists Demo.page2, [[("title", Str "Third")]],
      (Bs4.mkTag "a" [("href", Bs4.AttrStr "p3")] [Demo.text_node "next"]),
      "p3", "http://example.com/p3".
    repeat split.
Qed.

Lemma max_pages_bounds_fetches_witness :
  (status (scrape_run Demo.site (Demo.config Demo.title_only 2) 10) = Done /\
   List.length (requested (scrape_run Demo.site (Demo.config Demo.title_only 2) 10))
   = 2%nat) /\
  (status (scrape_run Demo.endless (Demo.config Demo.title_only 0) 7) = OutOfFuel /\
   List.length (requested (scrape_run Demo.endless (Demo.config Demo.title_only 0) 7))
   = 7%nat).
Proof.
  split.
  - destruct (max_pages_bounds_fetches Demo.site
                (Demo.config Demo.title_only 2)) as [H _].
    destruct (H 2%Z ltac:(lia) eq_refl) as (_ & _ & H3).
    apply (H3 "a" 10%nat eq_refl eq_refl eq_refl); [simpl; lia |].
    exact site_two_pages_good.
  - destruct (max_pages_bounds_fetches Demo.endless
                (Demo.config Demo.title_only 0)) as [_ H].
    apply (H eq_refl "a" 7%nat eq_refl eq_refl eq_refl).
    intros k url _. now apply endless_good.
Defined.

(** ** Fetch failures *)




(** The scenario of the specification: three pages, the second request
    fails, the rows of the first page come back. *)
Example failure_on_page_two :
  scrape (Demo.site_with_second (fun _ => Failed ConnectionError))
    (Demo.config Demo.title_only 0) 10
  = Some (Ok [[("title", Str "First")]; [("title", Str "Second")]]) /\
  scrape (Demo.site_with_second (fun url => Responded (mkResponse 404 (Demo.body_of url))))
    (Demo.config Demo.title_only 0) 10
  = Some (Ok [[("title", Str "First")]; [("title", Str "Second")]]).
Proof. split; reflexivity. Qed.


Example status_300_is_scraped :
  scrape Demo.multiple_choices_site Demo.titles 10
  = Some (Ok [[("title", Str "First")]; [("title", Str "Second")];
              [("title", Str "Third")]; [("title", Str "Fourth")]]).
Proof. reflexivity. Qed.

(** ** The rows of a run *)

Lemma page_rows_items (w : World) (cfg : Config) (soup : Bs4.Tag)
  (rows : list Row) :
  page_rows w cfg soup = Ok rows ->
  exists items,
    select w soup (item_selector cfg) = Ok items /\
    Forall2 (fun item row => fill_row w item (fields cfg) [] = Ok row) items rows.
Proof.
  unfold page_rows.
  destruct (select w soup (item_selector cfg)) as [items|]; simpl; [| discriminate].
  intros H. exists items. split; [reflexivity | now apply mapM_Forall2].
Qed.

Lemma scrape_returns (w : World) (cfg : Config) (fuel : nat) (rows : list Row) :
  scrape w cfg fuel = Some (Ok rows) ->
  status (scrape_run w cfg fuel) = Done /\ results (scrape_run w cfg fuel) = rows.
Proof.
  unfold scrape. destruct (status (scrape_run w cfg fuel)); try discriminate.
  now intros [= <-].
Qed.

(** The rows come page by page, and on a page item by item. *)
Lemma scrape_page_by_page (w : World) (cfg : Config) (fuel : nat)
  (rows : list Row) :
  scrape w cfg fuel = Some (Ok rows) ->
  exists pages_rows,
    rows = concat pages_rows /\
    Forall2
      (fun soup page =>
         exists items,
           select w soup (item_selector cfg) = Ok items /\
           Forall2 (fun item row => fill_row w item (fields cfg) [] = Ok row)
             items page)
      (pages_from w 1%Z (requested (scrape_run w cfg fuel))) pages_rows.
Proof.
  intros H. apply scrape_returns in H as [St <-]. unfold scrape_run in *.
  destruct (scrape_loop_rows w cfg fuel (start_url cfg) 1%Z) as (prs & E & Hall).
  { intros e. rewrite St. discriminate. }
  exists prs. split; [exact E |].
  eapply Forall2_impl; [| exact Hall].
  intros soup page. apply page_rows_items.
Qed.

Lemma scrape_rows_filled (w : World) (cfg : Config) (fuel : nat)
  (rows : list Row) :
  scrape w cfg fuel = Some (Ok rows) ->
  forall row, In row rows ->
              exists item, fill_row w item (fields cfg) [] = Ok row.
Proof.
  intros H row Hin.
  destruct (scrape_page_by_page w cfg fuel rows H) as (prs & -> & Hall).
  apply in_concat in Hin as (page & Hpage & Hrow).
  clear H. induction Hall as [|soup pg soups prs' (items & _ & Hitems) _ IH].
  - destruct Hpage.
  - destruct Hpage as [<- | Hpage]; [| now apply IH].
    clear IH. induction Hitems as [|item r items' pg' Hfill _ IH'].
    + destruct Hrow.
    + destruct Hrow as [<- | Hrow]; [now exists item | now apply IH'].
Qed.

(** C6. The rows [scrape] returns are the rows of the first page fetched,
    then those of the second, and so on; the rows of a page are one row
    per selected item, in selection order, none left out or merged.  So
    at every page boundary the rows of the earlier pages come first. *)
Theorem results_page_major (w : World) (cfg : Config) (fuel : nat)
  (rows : list Row) :
  scrape w cfg fuel = Some (Ok rows) ->
  exists pages_rows,
    rows = concat pages_rows /\
    Forall2
      (fun soup page =>
         exists items,
           select w soup (item_selector cfg) = Ok items /\
           List.length page = List.length items /\
           Forall2 (fun item row => fill_row w item (fields cfg) [] = Ok row)
             items page)
      (pages_from w 1%Z (requested (scrape_run w cfg fuel))) pages_rows /\
    forall p,
      rows = (concat (firstn p pages_rows) ++ concat (skipn p pages_rows))%list.
Proof.
  intros H.
  destruct (scrape_page_by_page w cfg fuel rows H) as (prs & E & Hall).
  exists prs. split; [exact E |]. split.
  - eapply Forall2_impl; [| exact Hall].
    intros soup page (items & Hs & Hitems). exists items.
    repeat split; try assumption. symmetry. exact (Forall2_length Hitems).
  - intros p. now rewrite <- concat_app, firstn_skipn.
Qed.

Lemma results_page_major_witness :
  exists pages_rows,
    [[("title", Str "First")]; [("title", Str "Second")];
     [("title", Str "Third")]; [("title", Str "Fourth")]]
    = concat pages_rows /\
    Forall2
      (fun soup page =>
         exists items,
           select Demo.site soup (item_selector Demo.titles) = Ok items /\
           List.length page = List.length items /\
           Forall2
             (fun item row =>
                fill_row Demo.site item (fields Demo.titles) [] = Ok row)
             items page)
      (pages_from Demo.site 1%Z (requested (scrape_run Demo.site Demo.titles 10)))
      pages_rows /\
    forall p,
      [[("title", Str "First")]; [("title", Str "Second")];
       [("title", Str "Third")]; [("title", Str "Fourth")]]
      = (concat (firstn p pages_rows) ++ concat (skipn p pages_rows))%list.
Proof.
  exact (results_page_major Demo.site Demo.titles 10 _ eq_refl).
Defined.

Example two_items_in_order :
  scrape Demo.site
    (mkConfig "http://example.com/list" "li" Demo.title_only
       (mkPagination 0 None)) 5
  = Some (Ok [[("title", Str "First")]; [("title", Str "Second")]]).
Proof. reflexivity. Qed.

(** ** The shape of a row *)

Lemma keys_app {V : Type} (a b : list (string * V)) :
  keys (a ++ b)%list = (keys a ++ keys b)%list.
Proof. unfold keys. apply map_app. Qed.

Lemma dict_set_fresh {V : Type} (d : list (string * V)) (k : string) (v : V) :
  ~ In k (keys d) -> dict_set d k v = (d ++ [(k, v)])%list.
Proof.
  induction d as [|[k' v'] d IH]; simpl; intros H; [reflexivity |].
  destruct (k' =? k) eqn:E.
  - apply String.eqb_eq in E. elim H. now left.
  - rewrite IH; [reflexivity |]. intros Hin. apply H. now right.
Qed.

(** Over distinct field names every assignment adds a new key at the end. *)
Lemma fill_row_fresh (w : World) (item : Bs4.Tag) (fs : list (string * FieldCfg)) :
  forall row0 row,
    NoDup (keys fs) ->
    (forall k, In k (keys fs) -> ~ In k (keys row0)) ->
    fill_row w item fs row0 = Ok row ->
    exists new,
      row = (row0 ++ new)%list /\
      Forall2 (fun kv fc => fst kv = fst fc /\
                            extract_field w item (snd fc) = Ok (snd kv))
        new fs.
Proof.
  induction fs as [|[name fc] fs IH]; intros row0 row Hnd Hfresh; simpl.
  - intros [= <-]. exists []. split; [now rewrite app_nil_r | constructor].
  - destruct (extract_field w item fc) as [v|] eqn:E; simpl; [| discriminate].
    intros Hfill. simpl in Hnd. inversion Hnd as [| ? ? Hname Hnd']; subst.
    rewrite dict_set_fresh in Hfill by (apply Hfresh; now left).
    assert (Hfresh' : forall k, In k (keys fs) ->
                                ~ In k (keys (row0 ++ [(name, v)])%list)).
    { intros k Hk Hin. rewrite keys_app in Hin.
      apply in_app_or in Hin as [Hin | Hin].
      - exact (Hfresh k (or_intror Hk) Hin).
      - destruct Hin as [<- | []]. exact (Hname Hk). }
    destruct (IH _ _ Hnd' Hfresh' Hfill) as (new & -> & Hall).
    exists ((name, v) :: new). split; [now rewrite <- app_assoc |].
    constructor; [now split | exact Hall].
Qed.

Lemma fill_row_schema (w : World) (item : Bs4.Tag)
  (fs : list (string * FieldCfg)) (row : Row) :
  NoDup (keys fs) -> fill_row w item fs [] = Ok row ->
  keys row = keys fs /\
  Forall2 (fun kv fc => fst kv = fst fc /\ is_list (snd kv) = multiple (snd fc))
    row fs.
Proof.
  intros Hnd Hfill.
  destruct (fill_row_fresh w item fs [] row Hnd ltac:(intros k _ [])
              Hfill) as (new & -> & Hall).
  simpl. clear Hfill Hnd. induction Hall as [|kv fc new' fs' [Hk Hv] _ [IHk IHs]].
  - split; constructor.
  - split; [simpl; now rewrite Hk, IHk |].
    constructor; [| exact IHs].
    split; [exact Hk | exact (extract_field_shape w item _ _ Hv)].
Qed.

(** ** Writing the CSV file *)

Lemma in_list_In (k : string) (l : list string) :
  In k l -> Urllib.in_list k l = true.
Proof.
  intros H. unfold Urllib.in_list. apply existsb_exists.
  exists k. split; [exact H | apply String.eqb_refl].
Qed.

Lemma dict_get_keys (d : list (string * string)) :
  NoDup (keys d) ->
  map (fun key => match Bs4.dict_get d key with
                  | Some cell => cell
                  | None => EmptyString
                  end) (keys d)
  = map snd d.
Proof.
  induction d as [|[k v] d IH]; simpl; intros Hnd; [reflexivity |].
  inversion Hnd as [| ? ? Hk Hnd']; subst.
  rewrite String.eqb_refl. f_equal. rewrite <- (IH Hnd').
  apply map_ext_in. intros k' Hk'.
  destruct (k =? k') eqn:E; [| reflexivity].
  apply String.eqb_eq in E. subst. now elim Hk.
Qed.

Lemma dict_to_list_same_keys (rowdict : list (string * string)) :
  NoDup (keys rowdict) ->
  dict_to_list (keys rowdict) rowdict = Ok (map snd rowdict).
Proof.
  intros Hnd. unfold dict_to_list.
  assert (E : existsb (fun k => negb (Urllib.in_list k (keys rowdict)))
                (keys rowdict) = false).
  { destruct (existsb _ _) eqn:X; [| reflexivity].
    apply existsb_exists in X as (k & Hin & Hk).
    now rewrite (in_list_In _ _ Hin) in Hk. }
  now rewrite E, dict_get_keys.
Qed.

Lemma keys_flatten (row : Row) :
  keys (map (fun kv => (fst kv, flatten (snd kv))) row) = keys row.
Proof. unfold keys. rewrite map_map. reflexivity. Qed.

Lemma write_rows_same_keys (fieldnames : list string) (rows : list Row) :
  NoDup fieldnames ->
  Forall (fun row => keys row = fieldnames) rows ->
  write_rows fieldnames rows
  = (map (fun row => map (fun kv => flatten (snd kv)) row) rows, None).
Proof.
  intros Hnd. induction 1 as [|row rows Hrow _ IH]; simpl; [reflexivity |].
  rewrite <- (keys_flatten row) in Hrow. rewrite <- Hrow at 1.
  rewrite dict_to_list_same_keys by now rewrite Hrow.
  rewrite IH. now rewrite map_map.
Qed.

Lemma save_as_csv_same_keys (first : Row) (rest : list Row) (path : string) :
  NoDup (keys first) ->
  Forall (fun row => keys row = keys first) rest ->
  save_as_csv (first :: rest) path
  = mkOutput
      [(path,
        CsvDocument
          (keys first
           :: map (fun row => map (fun kv => flatten (snd kv)) row)
                (first :: rest)))]
      ["[INFO] Saved CSV: " ++ path] None.
Proof.
  intros Hnd Hall. unfold save_as_csv.
  now rewrite (write_rows_same_keys (keys first) (first :: rest) Hnd)
    by now constructor.
Qed.

(** C7. With distinct field names, every row of a run has the keys of
    [config.fields] in their order, and under each key a list when the
    rule is [multiple] and a string when it is not.  So all rows have the
    keys of the first one, and writing them as CSV under that header
    raises nothing. *)
Theorem rows_share_the_schema (w : World) (cfg : Config) (fuel : nat)
  (rows : list Row) :
  NoDup (keys (fields cfg)) ->
  scrape w cfg fuel = Some (Ok rows) ->
  Forall (fun row =>
            keys row = keys (fields cfg) /\
            Forall2 (fun kv fc => fst kv = fst fc /\
                                  is_list (snd kv) = multiple (snd fc))
              row (fields cfg)) rows /\
  (forall row first, hd_error rows = Some first -> In row rows ->
                     keys row = keys first) /\
  (forall path, raised (save_as_csv rows path) = None).
Proof.
  intros Hnd H.
  assert (Hall : Forall (fun row =>
            keys row = keys (fields cfg) /\
            Forall2 (fun kv fc => fst kv = fst fc /\
                                  is_list (snd kv) = multiple (snd fc))
              row (fields cfg)) rows).
  { apply Forall_forall. intros row Hin.
    destruct (scrape_rows_filled w cfg fuel rows H row Hin) as [item Hfill].
    exact (fill_row_schema w item _ row Hnd Hfill). }
  split; [exact Hall |]. rewrite Forall_forall in Hall. split.
  - intros row first Hhd Hin.
    destruct rows as [|r rows']; [discriminate |]. injection Hhd as ->.
    destruct (Hall row Hin) as [-> _].
    destruct (Hall first (or_introl eq_refl)) as [-> _]. reflexivity.
  - intros path. destruct rows as [|first rest]; [reflexivity |].
    destruct (Hall first (or_introl eq_refl)) as [Hk _].
    rewrite save_as_csv_same_keys; [reflexivity | now rewrite Hk |].
    apply Forall_forall. intros row Hin.
    destruct (Hall row (or_intror Hin)) as [-> _]. now rewrite Hk.
Qed.

Lemma title_and_tags_distinct : NoDup (keys Demo.title_and_tags).
Proof.
  repeat constructor; simpl; intuition discriminate.
Qed.

Lemma rows_share_the_schema_witness :
  Forall (fun row =>
            keys row = ["title"; "tags"] /\
            Forall2 (fun kv fc => fst kv = fst fc /\
                                  is_list (snd kv) = multiple (snd fc))
              row Demo.title_and_tags)
    [[("title", Str "First"); ("tags", StrList ["x"])];
     [("title", Str "Second"); ("tags", StrList [])];
     [("title", Str "Third"); ("tags", StrList ["y"; "z"])];
     [("title", Str "Fourth"); ("tags", StrList [])]].
Proof.
  exact (proj1 (rows_share_the_schema Demo.site
                  (Demo.config Demo.title_and_tags 0) 10 _
                  title_and_tags_distinct eq_refl)).
Defined.

(** C8. For a non-empty list of rows the CSV file starts with the keys of
    the first row; when the rows share those keys, each row becomes one
    line with a cell per key, a list joined with a comma and a space, a
    string as it is.  For an empty list no file is written and the
    warning is printed. *)
Theorem csv_header_and_flattening (path : string) :
  save_as_csv [] path = mkOutput [] ["[WARN] No data to save as CSV."] None /\
  (forall first rest,
      exists lines,
        files (save_as_csv (first :: rest) path)
        = [(path, CsvDocument (keys first :: lines))]) /\
  (forall first rest,
      NoDup (keys first) ->
      Forall (fun row => keys row = keys first) rest ->
      save_as_csv (first :: rest) path
      = mkOutput
          [(path,
            CsvDocument
              (keys first
               :: map (fun row => map (fun kv => flatten (snd kv)) row)
                    (first :: rest)))]
          ["[INFO] Saved CSV: " ++ path] None) /\
  (forall l, flatten (StrList l) = PyStr.join ", " l) /\
  (forall s, flatten (Str s) = s) /\
  save_as_csv [[("tags", StrList ["a"; "b"])]] path
  = mkOutput [(path, CsvDocument [["tags"]; ["a, b"]])]
      ["[INFO] Saved CSV: " ++ path] None.
Proof.
  split; [reflexivity |]. split; [| split; [| repeat split]].
  - intros first rest. unfold save_as_csv.
    destruct (write_rows (keys first) (first :: rest)) as [lines exc].
    now exists lines.
  - intros first rest. apply save_as_csv_same_keys.
Qed.

Lemma csv_header_and_flattening_witness :
  save_as_csv
    [[("title", Str "Third"); ("tags", StrList ["y"; "z"])];
     [("title", Str "Fourth"); ("tags", StrList [])]] "out.csv"
  = mkOutput
      [("out.csv",
        CsvDocument [["title"; "tags"]; ["Third"; "y, z"];
                     ["Fourth"; EmptyString]])]
      ["[INFO] Saved CSV: out.csv"] None.
Proof.
  destruct (csv_header_and_flattening "out.csv") as (_ & _ & H & _).
  apply (H [("title", Str "Third"); ("tags", StrList ["y"; "z"])]
           [[("title", Str "Fourth"); ("tags", StrList [])]]).
  - exact title_and_tags_distinct.
  - repeat constructor.
Defined.




Example empty_run_output :
  main Demo.site Demo.nothing_there "out.json" "out.csv" 10
  = Some (mkOutput [("out.json", JsonDocument [])]
            ["[INFO] Saved JSON: out.json"; "[WARN] No data to save as CSV."]
            None).
Proof. reflexivity. Qed.

(** * Further properties of the code *)

(** ** More on the next URL *)

(** X1. Whatever the branch, the resolved URL ends with the href as it
    was found: a prefix is put before it, nothing is changed in it. *)
Theorem next_url_keeps_href (w : World) (cur h url : string) :
  next_url w cur h = Ok url -> exists before, url = before ++ h.
Proof.
  unfold next_url.
  destruct (_ || _); [intros [= <-]; now exists EmptyString |].
  destruct (_ && _); [intros [= <-]; eauto |].
  destruct (PyStr.startswith h "/").
  - destruct (urlparse w cur); simpl; [| discriminate].
    intros [= <-]. eauto.
  - destruct (PyStr.endswith cur "/"); intros [= <-]; [eauto |].
    exists (nth 0 (PyStr.rsplit1 cur "/") EmptyString ++ "/").
    now rewrite append_assoc.
Qed.

Lemma next_url_keeps_href_witness :
  exists before, "http://example.com/a/p2" = before ++ "p2".
Proof.
  exact (next_url_keeps_href Demo.site "http://example.com/a/b" "p2" _ eq_refl).
Defined.

(** X2. The resolution raises only in its third branch, and then with
    the exception of [urlparse]: the href is rooted and not absolute, the
    current URL does not end with a slash, and [urlparse] refused it. *)
Theorem next_url_raises_only_from_urlparse (w : World) (cur h : string)
  (e : exn) :
  next_url w cur h = Raise e ->
  urlparse w cur = Raise e /\
  absolute h = false /\ PyStr.startswith h "/" = true /\
  PyStr.endswith cur "/" = false.
Proof.
  unfold next_url, absolute.
  destruct (_ || _); [discriminate |].
  destruct (PyStr.startswith h "/"); rewrite ?andb_true_r, ?andb_false_r.
  - destruct (PyStr.endswith cur "/"); [discriminate |].
    destruct (urlparse w cur); simpl; [discriminate |].
    now intros [= <-].
  - destruct (PyStr.endswith cur "/"); discriminate.
Qed.

Lemma next_url_raises_only_from_urlparse_witness :
  urlparse Demo.site "http://[::1/a" = Raise ValueError /\
  absolute "/x" = false /\ PyStr.startswith "/x" "/" = true /\
  PyStr.endswith "http://[::1/a" "/" = false.
Proof.
  exact (next_url_raises_only_from_urlparse Demo.site "http://[::1/a" "/x"
           ValueError eq_refl).
Defined.

(** X3. After a current URL without any slash, a relative href is put
    behind the whole URL and a slash: [rsplit] finds nothing to cut, so
    nothing of the URL is dropped. *)
Theorem relative_href_after_bare_url (w : World) (cur h : string) :
  absolute h = false -> PyStr.startswith h "/" = false ->
  slash_free cur = true ->
  next_url w cur h = Ok (cur ++ "/" ++ h).
Proof. apply next_url_no_slash. Qed.

Lemma relative_href_after_bare_url_witness :
  next_url Demo.site "example.com" "page2" = Ok "example.com/page2".
Proof.
  apply (relative_href_after_bare_url Demo.site "example.com" "page2");
    reflexivity.
Defined.

(** ** More on field extraction *)

Lemma get_strip_trimmed (el : Bs4.Tag) (a s : string) :
  get_strip el a = Ok s -> trimmed s = true.
Proof.
  unfold get_strip. destruct (Bs4.get el a) as [[v|l]|]; try discriminate;
    intros [= <-]; apply strip_trimmed.
Qed.

Lemma node_string_trimmed (fc : FieldCfg) (el : Bs4.Tag) (s : string) :
  node_string fc el = Ok s -> trimmed s = true.
Proof.
  unfold node_string. destruct (attr_set fc) as [a|].
  - apply get_strip_trimmed.
  - intros [= <-]. apply get_text_strip_trimmed.
Qed.

Lemma extract_value_trimmed (w : World) (item : Bs4.Tag) (fc : FieldCfg)
  (v : Value) :
  extract_field w item fc = Ok v -> value_trimmed v.
Proof.
  destruct (select w item (selector fc)) as [els|e] eqn:Hs.
  - destruct (multiple fc) eqn:Hm.
    + rewrite (extract_field_multiple w item fc els Hm Hs).
      destruct (mapM (node_string fc) els) as [vs|] eqn:E; simpl;
        [| discriminate].
      intros [= <-]. simpl. apply mapM_Forall2 in E.
      clear Hs. induction E as [|el s els' vs' Hel _ IH]; [constructor |].
      constructor; [exact (node_string_trimmed fc el s Hel) | exact IH].
    + rewrite (extract_field_single w item fc els Hm Hs).
      destruct els as [|el rest]; [now intros [= <-] |].
      destruct (node_string fc el) as [s|] eqn:E; simpl; [| discriminate].
      intros [= <-]. exact (node_string_trimmed fc el s E).
  - unfold extract_field, select_one. rewrite Hs. now destruct (multiple fc).
Qed.

(** X4. Every string [extract_field] returns, alone or in a list, has no
    whitespace at its ends, read from an attribute or from the text. *)
Theorem extract_field_trimmed (w : World) (item : Bs4.Tag) (fc : FieldCfg)
  (v : Value) :
  extract_field w item fc = Ok v -> value_trimmed v.
Proof. apply extract_value_trimmed. Qed.

Lemma extract_field_trimmed_witness :
  value_trimmed (StrList [EmptyString; "/y"]).
Proof.
  exact (extract_field_trimmed Demo.site Demo.links_item
           (mkFieldCfg "a" (Some "href") true) _ eq_refl).
Defined.

(** X5. Under one selector and one attribute, the single value is the
    first entry of the multiple value, and the empty string when that
    list is empty. *)
Theorem single_is_first_of_multiple (w : World) (item : Bs4.Tag)
  (sel : string) (a : option string) (vs : list string) :
  extract_field w item (mkFieldCfg sel a true) = Ok (StrList vs) ->
  extract_field w item (mkFieldCfg sel a false) = Ok (Str (hd EmptyString vs)).
Proof.
  destruct (select w item sel) as [els|e] eqn:Hs.
  - rewrite (extract_field_multiple w item (mkFieldCfg sel a true) els eq_refl Hs).
    rewrite (extract_field_single w item (mkFieldCfg sel a false) els eq_refl Hs).
    destruct els as [|el rest]; simpl; [now intros [= <-] |].
    change (node_string (mkFieldCfg sel a true) el)
      with (node_string (mkFieldCfg sel a false) el).
    destruct (node_string (mkFieldCfg sel a false) el) as [s|]; simpl;
      [| discriminate].
    destruct (mapM _ rest); simpl; [| discriminate].
    now intros [= <-].
  - unfold extract_field, select_one. simpl. now rewrite Hs.
Qed.

Lemma single_is_first_of_multiple_witness :
  extract_field Demo.site Demo.page2 (mkFieldCfg "i" None false)
  = Ok (Str "y").
Proof.
  exact (single_is_first_of_multiple Demo.site Demo.page2 "i" None
           ["y"; "z"] eq_refl).
Defined.

(** An empty attribute name is no attribute: [if attr:] fails, and
    the text of the node is read, as when [attr] is absent. *)
Remark empty_attr_reads_text (w : World) (item : Bs4.Tag) (sel : string)
  (m : bool) :
  extract_field w item (mkFieldCfg sel (Some EmptyString) m)
  = extract_field w item (mkFieldCfg sel None m).
Proof. reflexivity. Qed.

Lemma mapM_raises {A B : Type} (f : A -> result B) (e : exn) (xs : list A) :
  (forall x e', f x = Raise e' -> e' = e) ->
  (exists x, In x xs /\ f x = Raise e) ->
  mapM f xs = Raise e.
Proof.
  intros Honly (x & Hin & Hx). induction xs as [|y xs IH]; [destruct Hin |].
  simpl. destruct (f y) as [b|e'] eqn:Fy; simpl.
  - destruct Hin as [-> | Hin]; [congruence |].
    now rewrite (IH Hin).
  - now rewrite (Honly y e' Fy).
Qed.

(** X6. An attribute held as a list ([class], [rel], ...) has no [strip]:
    a single field raises [AttributeError] when its first match has such
    a value, a multiple field when any match has. *)
Theorem list_valued_attribute_raises (w : World) (item : Bs4.Tag)
  (fc : FieldCfg) (a : string) (els : list Bs4.Tag) :
  attr_set fc = Some a ->
  select w item (selector fc) = Ok els ->
  (multiple fc = false ->
   forall el rest l,
     els = el :: rest -> Bs4.get el a = Some (Bs4.AttrList l) ->
     extract_field w item fc = Raise AttributeError) /\
  (multiple fc = true ->
   forall el l,
     In el els -> Bs4.get el a = Some (Bs4.AttrList l) ->
     extract_field w item fc = Raise AttributeError).
Proof.
  intros Ha Hs. split; intros Hm.
  - intros el rest l -> Hg.
    rewrite (extract_field_single w item fc _ Hm Hs).
    unfold node_string, get_strip. now rewrite Ha, Hg.
  - intros el l Hin Hg.
    rewrite (extract_field_multiple w item fc _ Hm Hs).
    rewrite (mapM_raises (node_string fc) AttributeError els); [reflexivity | |].
    + intros x e'. unfold node_string, get_strip. rewrite Ha.
      destruct (Bs4.get x a) as [[s|l']|]; try discriminate. now intros [= <-].
    + exists el. split; [exact Hin |].
      unfold node_string, get_strip. now rewrite Ha, Hg.
Qed.

Lemma list_valued_attribute_raises_witness :
  extract_field Demo.site Demo.classy_item (mkFieldCfg "a" (Some "class") false)
  = Raise AttributeError /\
  extract_field Demo.site Demo.classy_item (mkFieldCfg "a" (Some "class") true)
  = Raise AttributeError.
Proof.
  split.
  - destruct (list_valued_attribute_raises Demo.site Demo.classy_item
                (mkFieldCfg "a" (Some "class") false) "class"
                [Demo.classy_link] eq_refl eq_refl) as [H _].
    exact (H eq_refl Demo.classy_link [] ["x"; "y"] eq_refl eq_refl).
  - destruct (list_valued_attribute_raises Demo.site Demo.classy_item
                (mkFieldCfg "a" (Some "class") true) "class"
                [Demo.classy_link] eq_refl eq_refl) as [_ H].
    exact (H eq_refl Demo.classy_link ["x"; "y"] (or_introl eq_refl) eq_refl).
Defined.

(** ** More on the loop *)

Section Requests.

Variable w : World.
Variable cfg : Config.

Local Abbreviation run_from := (fun fuel url n => scrape_loop w cfg fuel url n [] []).

(** The first request of a run is for the URL it starts from. *)
Lemma requested_head (fuel : nat) (url u : string) (n : Z) :
  nth_error (requested (run_from fuel url n)) 0 = Some u ->
  u = url /\ PyStr.truthy url = true /\ exists fuel', fuel = S fuel'.
Proof.
  destruct (PyStr.truthy url) eqn:Hu;
    [| rewrite scrape_loop_empty_url by exact Hu; discriminate].
  destruct fuel as [|fuel]; [rewrite scrape_loop_no_fuel by exact Hu; discriminate |].
  rewrite scrape_loop_step by exact Hu. intros H.
  assert (E : u = url).
  { destruct (fetch_page w n url) as [soup|]; [| now injection H].
    destruct (page_rows w cfg soup) as [rows|e]; [| now injection H].
    destruct (advance w cfg soup url n); now injection H. }
  split; [exact E |]. split; [reflexivity | now exists fuel].
Qed.

(** From its [k]-th request on, a run is the run that starts at that URL
    with page index [n + k]; before it, [k] pages gave their rows. *)
Lemma scrape_loop_suffix (fuel : nat) :
  forall url n k u,
    nth_error (requested (run_from fuel url n)) k = Some u ->
    exists fuel' pages_rows,
      List.length pages_rows = k /\
      status (run_from fuel url n)
      = status (run_from (S fuel') u (n + Z.of_nat k)%Z) /\
      results (run_from fuel url n)
      = (concat pages_rows
         ++ results (run_from (S fuel') u (n + Z.of_nat k)%Z))%list /\
      requested (run_from fuel url n)
      = (firstn k (requested (run_from fuel url n))
         ++ requested (run_from (S fuel') u (n + Z.of_nat k)%Z))%list /\
      List.length (firstn k (requested (run_from fuel url n))) = k /\
      PyStr.truthy u = true /\
      Forall2 (fun soup rows => page_rows w cfg soup = Ok rows)
        (pages_from w n (firstn k (requested (run_from fuel url n))))
        pages_rows.
Proof.
  induction fuel as [|fuel IH]; intros url n k u Hk.
  - destruct (PyStr.truthy url) eqn:Hu.
    + rewrite scrape_loop_no_fuel in Hk by exact Hu. now destruct k.
    + rewrite scrape_loop_empty_url in Hk by exact Hu. now destruct k.
  - destruct k as [|k].
    + destruct (requested_head _ _ _ _ Hk) as (-> & Hu & _).
      exists fuel, []. rewrite Z.add_0_r. repeat split; try assumption.
      constructor.
    + destruct (PyStr.truthy url) eqn:Hu;
        [| rewrite scrape_loop_empty_url in Hk by exact Hu; discriminate].
      rewrite scrape_loop_step in * by exact Hu.
      destruct (fetch_page w n url) as [soup|] eqn:F; [| now destruct k].
      destruct (page_rows w cfg soup) as [rows|e] eqn:P; [| now destruct k].
      destruct (advance w cfg soup url n) as [|e|next];
        try (now destruct k).
      simpl in Hk.
      destruct (IH next (n + 1)%Z k u Hk)
        as (fuel' & prs & L & St & Res & Req & Len & Hu' & Hall).
      replace (n + 1 + Z.of_nat k)%Z with (n + Z.of_nat (S k))%Z in * by lia.
      exists fuel', (rows :: prs). simpl. rewrite L, Len, F.
      repeat split; try assumption.
      * rewrite Res at 1. now rewrite app_assoc.
      * now rewrite Req at 1.
      * now constructor.
Qed.

(** What [advance] has checked when it goes on. *)
Lemma advance_goto_inv (soup : Bs4.Tag) (url next : string) (n : Z) :
  advance w cfg soup url n = Goto next ->
  exists sel link href,
    next_page_selector (pagination cfg) = Some sel /\
    PyStr.truthy sel = true /\
    select_one w soup sel = Ok (Some link) /\
    Bs4.get link "href" = Some (Bs4.AttrStr href) /\
    PyStr.truthy href = true /\
    next_url w url href = Ok next.
Proof.
  unfold advance.
  destruct (match max_pages_opt cfg with Some _ => _ | None => _ end);
    [discriminate |].
  destruct (next_page_selector (pagination cfg)) as [sel|]; [| discriminate].
  destruct (PyStr.truthy sel) eqn:Ts; simpl; [| discriminate].
  destruct (select_one w soup sel) as [[link|]|] eqn:S1; try discriminate.
  destruct (Bs4.get link "href") as [[href|l]|] eqn:G; simpl;
    try discriminate.
  - destruct (PyStr.truthy href) eqn:T; simpl; [| discriminate].
    destruct (next_url w url href) as [u|] eqn:N; [| discriminate].
    intros [= <-]. exists sel, link, href. repeat split; assumption || reflexivity.
  - now destruct (negb _).
Qed.

(** What makes [advance] leave the loop whatever the page limit. *)
Lemma advance_no_link (soup : Bs4.Tag) (url : string) (n : Z) :
  match next_page_selector (pagination cfg) with
  | None => True
  | Some sel =>
      PyStr.truthy sel = false \/
      select_one w soup sel = Ok None \/
      exists link, select_one w soup sel = Ok (Some link) /\
                   Bs4.truthy (Bs4.get link "href") = false
  end ->
  advance w cfg soup url n = Finish.
Proof.
  unfold advance.
  destruct (match max_pages_opt cfg with Some _ => _ | None => _ end);
    [reflexivity |].
  destruct (next_page_selector (pagination cfg)) as [sel|]; [| reflexivity].
  intros H. destruct (negb (PyStr.truthy sel)) eqn:Ns; [reflexivity |].
  destruct H as [Ht | [Hn | (link & Hs & Hg)]].
  - rewrite Ht in Ns. discriminate.
  - now rewrite Hn.
  - rewrite Hs. cbv zeta. now rewrite Hg.
Qed.

End Requests.

(** X7. Every URL a run asks for is non-empty; the first is the start
    URL, and each later one is what the resolution made of the URL before
    it and the [href] of the first node under the next-page selector on
    the page fetched there. *)
Theorem requests_are_chained (w : World) (cfg : Config) (fuel : nat) :
  (forall u, In u (requested (scrape_run w cfg fuel)) -> PyStr.truthy u = true) /\
  (forall u, nth_error (requested (scrape_run w cfg fuel)) 0 = Some u ->
             u = start_url cfg) /\
  (forall k u u',
      nth_error (requested (scrape_run w cfg fuel)) k = Some u ->
      nth_error (requested (scrape_run w cfg fuel)) (S k) = Some u' ->
      exists soup sel link href,
        fetch_page w (Z.of_nat k + 1)%Z u = Some soup /\
        next_page_selector (pagination cfg) = Some sel /\
        select_one w soup sel = Ok (Some link) /\
        Bs4.get link "href" = Some (Bs4.AttrStr href) /\
        PyStr.truthy href = true /\
        next_url w u href = Ok u').
Proof.
  unfold scrape_run. split; [| split].
  - intros u Hin. apply In_nth_error in Hin as [k Hk].
    destruct (scrape_loop_suffix w cfg fuel _ _ _ _ Hk)
      as (? & ? & _ & _ & _ & _ & _ & Hu & _). exact Hu.
  - intros u H. now destruct (requested_head w cfg _ _ _ _ H).
  - intros k u u' Hk Hk'.
    destruct (scrape_loop_suffix w cfg fuel _ _ _ _ Hk)
      as (fuel' & prs & _ & _ & _ & Req & Len & Hu & _).
    rewrite Req in Hk'. rewrite nth_error_app2 in Hk' by lia.
    rewrite Len in Hk'. replace (S k - k)%nat with 1%nat in Hk' by lia.
    replace (1 + Z.of_nat k)%Z with (Z.of_nat k + 1)%Z in Hk' by lia.
    rewrite scrape_loop_step in Hk' by exact Hu.
    destruct (fetch_page w (Z.of_nat k + 1)%Z u) as [soup|]; [| discriminate].
    destruct (page_rows w cfg soup) as [rows|e]; [| discriminate].
    destruct (advance w cfg soup u (Z.of_nat k + 1)%Z) as [|e|next] eqn:A;
      try discriminate.
    simpl in Hk'. destruct (requested_head w cfg _ _ _ _ Hk') as (-> & _).
    destruct (advance_goto_inv w cfg _ _ _ _ A)
      as (sel & link & href & Hsel & _ & Hone & Hg & Ht & Hn).
    now exists soup, sel, link, href.
Qed.

Lemma requests_are_chained_witness :
  exists soup sel link href,
    fetch_page Demo.site (Z.of_nat 1 + 1)%Z "http://example.com/p2" = Some soup /\
    next_page_selector (pagination Demo.titles) = Some sel /\
    select_one Demo.site soup sel = Ok (Some link) /\
    Bs4.get link "href" = Some (Bs4.AttrStr href) /\
    PyStr.truthy href = true /\
    next_url Demo.site "http://example.com/p2" href = Ok "http://example.com/p3".
Proof.
  exact (proj2 (proj2 (requests_are_chained Demo.site Demo.titles 10))
           1%nat "http://example.com/p2" "http://example.com/p3"
           eq_refl eq_refl).
Defined.

(** X8. A page without a usable next link is the last: when the page of
    request [k + 1] is fetched and gives its rows, and the next-page
    selector is not set, or is empty, or matches nothing, or its first
    match has no [href] or an empty one, no further request is made and
    [scrape] returns the rows of the [k] pages fetched before, page after
    page, and then the rows of this one. *)
Theorem no_next_link_ends_the_run (w : World) (cfg : Config) (fuel k : nat)
  (url : string) (soup : Bs4.Tag) (rows : list Row) :
  nth_error (requested (scrape_run w cfg fuel)) k = Some url ->
  fetch_page w (Z.of_nat k + 1)%Z url = Some soup ->
  page_rows w cfg soup = Ok rows ->
  match next_page_selector (pagination cfg) with
  | None => True
  | Some sel =>
      PyStr.truthy sel = false \/
      select_one w soup sel = Ok None \/
      exists link, select_one w soup sel = Ok (Some link) /\
                   Bs4.truthy (Bs4.get link "href") = false
  end ->
  List.length (requested (scrape_run w cfg fuel)) = S k /\
  exists pages_rows,
    List.length pages_rows = k /\
    Forall2 (fun page page_rows' => page_rows w cfg page = Ok page_rows')
      (pages_from w 1%Z (firstn k (requested (scrape_run w cfg fuel))))
      pages_rows /\
    scrape w cfg fuel = Some (Ok (concat pages_rows ++ rows)%list).
Proof.
  intros Hk Hf Hp Hlink. unfold scrape. unfold scrape_run in *.
  destruct (scrape_loop_suffix w cfg fuel _ _ _ _ Hk)
    as (fuel' & prs & L & St & Res & Req & Len & Hu & Hall).
  replace (1 + Z.of_nat k)%Z with (Z.of_nat k + 1)%Z in * by lia.
  rewrite scrape_loop_step in St, Res, Req by exact Hu.
  rewrite Hf, Hp, (advance_no_link w cfg soup url _ Hlink) in St, Res, Req.
  simpl in St, Res, Req. split.
  - rewrite Req, length_app, Len. simpl. lia.
  - exists prs. split; [exact L |]. split; [exact Hall |].
    now rewrite St, Res.
Qed.

Lemma no_next_link_ends_the_run_witness :
  List.length (requested (scrape_run Demo.site Demo.titles 10)) = 3%nat /\
  exists pages_rows,
    List.length pages_rows = 2%nat /\
    Forall2
      (fun page page_rows' => page_rows Demo.site Demo.titles page = Ok page_rows')
      (pages_from Demo.site 1%Z
         (firstn 2 (requested (scrape_run Demo.site Demo.titles 10))))
      pages_rows /\
    scrape Demo.site Demo.titles 10
    = Some (Ok (concat pages_rows ++ [[("title", Str "Fourth")]])%list).
Proof.
  apply (no_next_link_ends_the_run Demo.site Demo.titles 10 2
           "http://example.com/p3" Demo.page3); try reflexivity.
  right. now left.
Defined.

(** X9. An exception while the rows of a page are read leaves [scrape]
    as that exception: the rows of the pages before are not returned, and
    [main] writes no file. *)
Theorem extraction_error_loses_the_rows (w : World) (cfg : Config)
  (json_path csv_path : string) (fuel k : nat) (url : string)
  (soup : Bs4.Tag) (e : exn) :
  nth_error (requested (scrape_run w cfg fuel)) k = Some url ->
  fetch_page w (Z.of_nat k + 1)%Z url = Some soup ->
  page_rows w cfg soup = Raise e ->
  scrape w cfg fuel = Some (Raise e) /\
  main w cfg json_path csv_path fuel = Some (mkOutput [] [] (Some e)).
Proof.
  intros Hk Hf Hp.
  assert (E : scrape w cfg fuel = Some (Raise e)).
  { unfold scrape. unfold scrape_run in *.
    destruct (scrape_loop_suffix w cfg fuel _ _ _ _ Hk)
      as (fuel' & prs & L & St & Res & Req & Len & Hu & _).
    replace (1 + Z.of_nat k)%Z with (Z.of_nat k + 1)%Z in * by lia.
    rewrite scrape_loop_step in St by exact Hu.
    rewrite Hf, Hp in St. simpl in St. now rewrite St. }
  split; [exact E |]. unfold main. now rewrite E.
Qed.

Lemma extraction_error_loses_the_rows_witness :
  scrape Demo.classy_site (Demo.config Demo.class_fields 0) 10
  = Some (Raise AttributeError) /\
  main Demo.classy_site (Demo.config Demo.class_fields 0) "out.json" "out.csv" 10
  = Some (mkOutput [] [] (Some AttributeError)).
Proof.
  exact (extraction_error_loses_the_rows Demo.classy_site
           (Demo.config Demo.class_fields 0) "out.json" "out.csv" 10 0
           "http://example.com/list" Demo.classy_page AttributeError
           eq_refl eq_refl eq_refl).
Defined.

(** X10. With an empty start URL the loop is never entered: no request
    is made and [scrape] returns the empty list at once. *)
Theorem empty_start_url_fetches_nothing (w : World) (cfg : Config) (fuel : nat) :
  start_url cfg = EmptyString ->
  requested (scrape_run w cfg fuel) = [] /\
  scrape w cfg fuel = Some (Ok []).
Proof.
  intros E. unfold scrape, scrape_run. rewrite E.
  rewrite scrape_loop_empty_url by reflexivity. now split.
Qed.

Lemma empty_start_url_fetches_nothing_witness :
  requested (scrape_run Demo.site
               (mkConfig EmptyString "li" Demo.title_only (mkPagination 0 None)) 0)
  = [] /\
  scrape Demo.site
    (mkConfig EmptyString "li" Demo.title_only (mkPagination 0 None)) 0
  = Some (Ok []).
Proof.
  exact (empty_start_url_fetches_nothing Demo.site
           (mkConfig EmptyString "li" Demo.title_only (mkPagination 0 None))
           0 eq_refl).
Defined.

(** X11. Without a next-page selector (absent or empty), and also with a
    negative [max_pages], only the start URL is asked for: one pass ends
    the loop, and when that page is fetched and read its rows are what
    [scrape] returns. *)
Theorem single_page_mode (w : World) (cfg : Config) (fuel : nat) :
  next_page_selector (pagination cfg) = None \/
  next_page_selector (pagination cfg) = Some EmptyString \/
  (max_pages (pagination cfg) < 0)%Z ->
  (List.length (requested (scrape_run w cfg fuel)) <= 1)%nat /\
  ((1 <= fuel)%nat -> status (scrape_run w cfg fuel) <> OutOfFuel) /\
  (forall soup rows,
      (1 <= fuel)%nat -> PyStr.truthy (start_url cfg) = true ->
      fetch_page w 1%Z (start_url cfg) = Some soup ->
      page_rows w cfg soup = Ok rows ->
      scrape w cfg fuel = Some (Ok rows)).
Proof.
  intros H.
  assert (A : forall soup url, advance w cfg soup url 1%Z = Finish).
  { intros soup url. destruct H as [H | [H | H]].
    - apply advance_no_link. now rewrite H.
    - apply advance_no_link. rewrite H. now left.
    - unfold advance, max_pages_opt.
      destruct (max_pages (pagination cfg) =? 0)%Z eqn:Z0; [lia |].
      destruct (1 >=? max_pages (pagination cfg))%Z eqn:C; [reflexivity | lia]. }
  unfold scrape, scrape_run.
  destruct (PyStr.truthy (start_url cfg)) eqn:Hu.
  - destruct fuel as [|fuel].
    + rewrite scrape_loop_no_fuel by exact Hu. simpl.
      split; [lia |]. split; [lia |]. intros; lia.
    + rewrite scrape_loop_step by exact Hu.
      destruct (fetch_page w 1%Z (start_url cfg)) as [soup|].
      * destruct (page_rows w cfg soup) as [rows|e] eqn:P.
        -- rewrite A. simpl. split; [lia |]. split; [discriminate |].
           intros soup' rows' _ _ [= <-] P'. congruence.
        -- simpl. split; [lia |]. split; [discriminate |].
           intros soup' rows' _ _ [= <-] P'. congruence.
      * simpl. split; [lia |]. split; [discriminate |].
        intros; discriminate.
  - rewrite scrape_loop_empty_url by exact Hu. simpl.
    split; [lia |]. split; [discriminate |]. intros; discriminate.
Qed.

Lemma single_page_mode_witness :
  scrape Demo.site (Demo.config Demo.title_only (-3)) 4
  = Some (Ok [[("title", Str "First")]; [("title", Str "Second")]]).
Proof.
  apply (single_page_mode Demo.site (Demo.config Demo.title_only (-3)) 4
           (or_intror (or_intror eq_refl))) with (soup := Demo.page1);
    try reflexivity. lia.
Defined.

(** ** More on the rows *)

Lemma dict_set_In {V : Type} (d : list (string * V)) (k : string) (v : V)
  (kv : string * V) :
  In kv (dict_set d k v) -> In kv d \/ kv = (k, v).
Proof.
  induction d as [|[k' v'] d IH]; simpl.
  - intros [<- | []]. now right.
  - destruct (k' =? k) eqn:E.
    + apply String.eqb_eq in E. subst k'. intros [<- | Hin]; [now right | left; now right].
    + intros [<- | Hin]; [left; now left |].
      destruct (IH Hin) as [H | H]; [left; now right | now right].
Qed.

(** Every entry of a filled row was there before or comes from a field. *)
Lemma fill_row_values (w : World) (item : Bs4.Tag) (fs : list (string * FieldCfg)) :
  forall row0 row kv,
    fill_row w item fs row0 = Ok row -> In kv row ->
    In kv row0 \/
    exists fc, In (fst kv, fc) fs /\ extract_field w item fc = Ok (snd kv).
Proof.
  induction fs as [|[name fc] fs IH]; intros row0 row kv; simpl.
  - intros [= <-] Hin. now left.
  - destruct (extract_field w item fc) as [v|] eqn:E; simpl; [| discriminate].
    intros Hfill Hin.
    destruct (IH _ _ _ Hfill Hin) as [H | (fc' & Hfc & Hv)].
    + destruct (dict_set_In _ _ _ _ H) as [H' | ->]; [now left |].
      right. exists fc. split; [now left | exact E].
    + right. exists fc'. split; [now right | exact Hv].
Qed.

(** X12. Every value of every row [scrape] returns comes from
    [extract_field] on a rule of [config.fields] under that rule's name,
    so every string in the result has no whitespace at its ends. *)
Theorem rows_hold_trimmed_strings (w : World) (cfg : Config) (fuel : nat)
  (rows : list Row) :
  scrape w cfg fuel = Some (Ok rows) ->
  forall row key v,
    In row rows -> In (key, v) row ->
    value_trimmed v /\
    exists item fc,
      In (key, fc) (fields cfg) /\ extract_field w item fc = Ok v.
Proof.
  intros H row key v Hrow Hkv.
  destruct (scrape_rows_filled w cfg fuel rows H row Hrow) as [item Hfill].
  destruct (fill_row_values w item _ _ _ _ Hfill Hkv) as [[] | (fc & Hfc & Hv)].
  split; [exact (extract_value_trimmed w item fc v Hv) |].
  now exists item, fc.
Qed.

Lemma rows_hold_trimmed_strings_witness :
  value_trimmed (Str "Second") /\
  exists item fc,
    In ("title", fc) (fields Demo.titles) /\
    extract_field Demo.site item fc = Ok (Str "Second").
Proof.
  apply (rows_hold_trimmed_strings Demo.site Demo.titles 10 _ eq_refl
           [("title", Str "Second")]).
  - right. now left.
  - now left.
Defined.

(** ** More on the CSV file *)

Lemma in_list_iff (k : string) (l : list string) :
  Urllib.in_list k l = true <-> In k l.
Proof.
  unfold Urllib.in_list. rewrite existsb_exists. split.
  - intros (x & Hin & E). apply String.eqb_eq in E. now subst.
  - intros H. exists k. split; [exact H | apply String.eqb_refl].
Qed.

Lemma dict_get_flatten (row : Row) (key : string) :
  Bs4.dict_get (map (fun kv => (fst kv, flatten (snd kv))) row) key
  = option_map flatten (Bs4.dict_get row key).
Proof.
  induction row as [|[k v] row IH]; simpl; [reflexivity |].
  now destruct (k =? key).
Qed.

Lemma dict_get_absent {V : Type} (d : list (string * V)) (key : string) :
  ~ In key (keys d) -> Bs4.dict_get d key = None.
Proof.
  induction d as [|[k v] d IH]; simpl; intros H; [reflexivity |].
  destruct (k =? key) eqn:E.
  - apply String.eqb_eq in E. elim H. now left.
  - apply IH. intros Hin. apply H. now right.
Qed.

Lemma dict_to_list_subset (fieldnames : list string) (row : Row) :
  incl (keys row) fieldnames ->
  dict_to_list fieldnames (map (fun kv => (fst kv, flatten (snd kv))) row)
  = Ok (csv_cells fieldnames row).
Proof.
  intros Hincl. unfold dict_to_list. rewrite keys_flatten.
  assert (E : existsb (fun k => negb (Urllib.in_list k fieldnames)) (keys row)
              = false).
  { destruct (existsb _ _) eqn:X; [| reflexivity].
    apply existsb_exists in X as (k & Hin & Hk).
    apply Hincl, in_list_iff in Hin. now rewrite Hin in Hk. }
  rewrite E. unfold csv_cells. f_equal. apply map_ext. intros key.
  rewrite dict_get_flatten. now destruct (Bs4.dict_get row key).
Qed.

Lemma dict_to_list_extra (fieldnames : list string) (row : Row) :
  (exists k, In k (keys row) /\ ~ In k fieldnames) ->
  dict_to_list fieldnames (map (fun kv => (fst kv, flatten (snd kv))) row)
  = Raise ValueError.
Proof.
  intros (k & Hin & Hout). unfold dict_to_list. rewrite keys_flatten.
  assert (E : existsb (fun k => negb (Urllib.in_list k fieldnames)) (keys row)
              = true).
  { apply existsb_exists. exists k. split; [exact Hin |].
    destruct (Urllib.in_list k fieldnames) eqn:X; [| reflexivity].
    apply in_list_iff in X. now elim Hout. }
  now rewrite E.
Qed.

Lemma write_rows_until (fieldnames : list string) (good : list Row)
  (rest : list Row) :
  Forall (fun row => incl (keys row) fieldnames) good ->
  write_rows fieldnames (good ++ rest)%list
  = (map (csv_cells fieldnames) good ++ fst (write_rows fieldnames rest),
     snd (write_rows fieldnames rest))%list.
Proof.
  induction 1 as [|row good Hrow _ IH]; simpl.
  - now destruct (write_rows fieldnames rest).
  - rewrite dict_to_list_subset by exact Hrow. now rewrite IH.
Qed.

(** X13. A row may lack keys of the first row: when no row has a key
    outside those of the first, nothing is raised, every row gives one
    line with as many cells as the header, looked up by key, and a key
    the row lacks gives an empty cell. *)
Theorem csv_missing_keys_give_empty_cells (first : Row) (rest : list Row)
  (path : string) :
  Forall (fun row => incl (keys row) (keys first)) rest ->
  save_as_csv (first :: rest) path
  = mkOutput
      [(path,
        CsvDocument (keys first :: map (csv_cells (keys first)) (first :: rest)))]
      ["[INFO] Saved CSV: " ++ path] None /\
  Forall (fun line => List.length line = List.length (keys first))
    (map (csv_cells (keys first)) (first :: rest)) /\
  (forall row key, ~ In key (keys row) -> csv_cells [key] row = [EmptyString]).
Proof.
  intros Hrest. split; [| split].
  - unfold save_as_csv.
    assert (Hall : Forall (fun row => incl (keys row) (keys first)) (first :: rest))
      by (constructor; [apply incl_refl | exact Hrest]).
    pose proof (write_rows_until (keys first) (first :: rest) [] Hall) as E.
    rewrite !app_nil_r in E. simpl fst in E. simpl snd in E.
    now rewrite E.
  - apply Forall_forall. intros line Hin.
    apply in_map_iff in Hin as (row & <- & _).
    unfold csv_cells. apply length_map.
  - intros row key Hout. unfold csv_cells. simpl.
    now rewrite dict_get_absent.
Qed.

Lemma csv_missing_keys_give_empty_cells_witness :
  save_as_csv
    [[("title", Str "A"); ("tags", StrList ["x"; "y"])];
     [("tags", StrList [])];
     [("tags", StrList ["z"]); ("title", Str "C")]] "out.csv"
  = mkOutput
      [("out.csv",
        CsvDocument [["title"; "tags"]; ["A"; "x, y"];
                     [EmptyString; EmptyString]; ["C"; "z"]])]
      ["[INFO] Saved CSV: out.csv"] None.
Proof.
  refine (proj1 (csv_missing_keys_give_empty_cells
                   [("title", Str "A"); ("tags", StrList ["x"; "y"])]
                   [[("tags", StrList [])];
                    [("tags", StrList ["z"]); ("title", Str "C")]] "out.csv" _)).
  constructor; [| constructor; [| constructor]];
    intros k Hk; unfold keys in *; simpl in *; tauto.
Defined.

(** X14. A row with a key that the first row has not makes the writer
    raise [ValueError]; the file is left with the header and the lines of
    the rows before that one, and the closing message is not printed. *)
Theorem csv_extra_key_raises (first : Row) (before : list Row) (bad : Row)
  (after : list Row) (path : string) :
  Forall (fun row => incl (keys row) (keys first)) before ->
  (exists k, In k (keys bad) /\ ~ In k (keys first)) ->
  save_as_csv (first :: before ++ bad :: after) path
  = mkOutput
      [(path,
        CsvDocument
          (keys first :: map (csv_cells (keys first)) (first :: before)))]
      [] (Some ValueError).
Proof.
  intros Hbefore Hbad. unfold save_as_csv.
  assert (Hall : Forall (fun row => incl (keys row) (keys first)) (first :: before))
    by (constructor; [apply incl_refl | exact Hbefore]).
  pose proof (write_rows_until (keys first) (first :: before) (bad :: after) Hall)
    as E.
  change ((first :: before) ++ bad :: after)%list
    with (first :: before ++ bad :: after)%list in E.
  rewrite E. cbn [write_rows]. rewrite (dict_to_list_extra _ _ Hbad).
  simpl fst. simpl snd. now rewrite app_nil_r.
Qed.

Lemma csv_extra_key_raises_witness :
  save_as_csv
    [[("title", Str "A")]; [("title", Str "B")];
     [("title", Str "C"); ("price", Str "3")]; [("title", Str "D")]] "out.csv"
  = mkOutput [("out.csv", CsvDocument [["title"]; ["A"]; ["B"]])]
      [] (Some ValueError).
Proof.
  apply (csv_extra_key_raises [("title", Str "A")] [[("title", Str "B")]]
           [("title", Str "C"); ("price", Str "3")] [[("title", Str "D")]]
           "out.csv").
  - constructor; [| constructor]. intros k Hk. exact Hk.
  - exists "price". split; [right; now left |].
    intros [H | []]. discriminate H.
Defined.

(** X15. The CSV file does not keep the shape of a value: a list of two
    strings is written as the one string that joins them, a list of one
    string as that string, and the empty list as the empty string. *)
Theorem csv_flattening_loses_the_shape (key a b path : string) :
  save_as_csv [[(key, StrList [a; b])]] path
  = save_as_csv [[(key, Str (a ++ ", " ++ b))]] path /\
  save_as_csv [[(key, StrList [a])]] path
  = save_as_csv [[(key, Str a)]] path /\
  save_as_csv [[(key, StrList [])]] path
  = save_as_csv [[(key, Str EmptyString)]] path.
Proof.
  unfold save_as_csv, write_rows, dict_to_list, keys, Urllib.in_list. simpl.
  rewrite !String.eqb_refl. simpl. now repeat split.
Qed.

(** ** A whole run *)

(** X16. With distinct field names and at least one row scraped, [main]
    writes the JSON file with the rows and then the CSV file, whose
    header is the field names of the configuration in their order and
    whose lines are the rows in order, each value flattened; both
    messages are printed and nothing is raised. *)
Theorem main_writes_both_files (w : World) (cfg : Config)
  (json_path csv_path : string) (fuel : nat) (first : Row) (rest : list Row) :
  NoDup (keys (fields cfg)) ->
  scrape w cfg fuel = Some (Ok (first :: rest)) ->
  main w cfg json_path csv_path fuel
  = Some (mkOutput
            [(json_path, JsonDocument (first :: rest));
             (csv_path,
              CsvDocument
                (keys (fields cfg)
                 :: map (fun row => map (fun kv => flatten (snd kv)) row)
                      (first :: rest)))]
            ["[INFO] Saved JSON: " ++ json_path;
             "[INFO] Saved CSV: " ++ csv_path]
            None).
Proof.
  intros Hnd H. unfold main. rewrite H.
  assert (Hkeys : forall row, In row (first :: rest) -> keys row = keys (fields cfg)).
  { intros row Hin.
    destruct (scrape_rows_filled w cfg fuel _ H row Hin) as [item Hfill].
    now destruct (fill_row_schema w item _ row Hnd Hfill). }
  pose proof (Hkeys first (or_introl eq_refl)) as Hfirst.
  rewrite save_as_csv_same_keys.
  - unfold and_then, save_as_json. simpl. now rewrite Hfirst.
  - now rewrite Hfirst.
  - apply Forall_forall. intros row Hin.
    now rewrite Hfirst, (Hkeys row (or_intror Hin)).
Qed.

Lemma main_writes_both_files_witness :
  main Demo.site (Demo.config Demo.title_and_tags 1) "out.json" "out.csv" 10
  = Some (mkOutput
            [("out.json",
              JsonDocument [[("title", Str "First"); ("tags", StrList ["x"])];
                            [("title", Str "Second"); ("tags", StrList [])]]);
             ("out.csv",
              CsvDocument [["title"; "tags"]; ["First"; "x"];
                           ["Second"; EmptyString]])]
            ["[INFO] Saved JSON: out.json"; "[INFO] Saved CSV: out.csv"]
            None).
Proof.
  exact (main_writes_both_files Demo.site (Demo.config Demo.title_and_tags 1)
           "out.json" "out.csv" 10 _ _ title_and_tags_distinct eq_refl).
Defined.
